(** * Reconciliation of Redis PodDisruptionBudgets

    A shallow embedding of [k8sutils/poddisruption.go] and the properties of
    its reconcile routine.  Kubernetes objects are records, Go maps are
    [gmap]s, [int32] values are integers with their wrap-around written out,
    and every call that leaves the package (the typed clientset, the
    object-matcher's annotator and patch maker) is threaded through an
    explicit world that also keeps a journal of the calls made. *)

From Stdlib Require Import ZArith String List Lia.
From stdpp Require Import base option list gmap strings pretty.

Local Open Scope string_scope.

(** ** Go values *)

(** [int32(x)]: conversion to a signed 32-bit integer, wrapping around. *)
Definition int32 (z : Z) : Z := ((z + 2 ^ 31) mod 2 ^ 32 - 2 ^ 31)%Z.


(** Go's [error] values as far as the package tells them apart: the API
    machinery's status errors (of which [errors.IsNotFound] recognises one),
    transport failures, and the failure of the JSON encoder. *)
Inductive error : Type :=
  | StatusNotFound (name : string)
  | StatusAlreadyExists (name : string)
  | StatusConflict (name : string)
  | TransportError (msg : string)
  | MarshalError (msg : string).

Module errors.
Definition IsNotFound (err : error) : bool :=
  match err with
  | StatusNotFound _ => true
  | _ => false
  end.
End errors.

(** What a Go function of result type [error] does: it returns [nil]
    ([Return None]), returns an error, or panics at run time. *)
Inductive outcome : Type :=
  | Return (err : option error)
  | Panic.

(** ** k8s.io/apimachinery/pkg/util/intstr *)
Module intstr.
Inductive Kind : Type := Int | String.
Record IntOrString : Type := {
  Type_ : Kind;
  IntVal : Z;
  StrVal : string
}.
End intstr.

(** ** k8s.io/apimachinery/pkg/apis/meta/v1 *)
Module metav1.
Record OwnerReference : Type := {
  APIVersion : string;
  Kind : string;
  OwnerName : string;
  OwnerUID : string
}.

Record LabelSelector : Type := {
  MatchLabels : gmap string string
}.

(** [ManagedFields] entries are opaque to the reconciler; the zero
    [CreationTimestamp] is [None]; the empty [ResourceVersion] and [UID] are
  [""]. *)
Record ObjectMeta : Type := {
  Name : string;
  Namespace : string;
  UID : string;
  Labels : gmap string string;
  Annotations : gmap string string;
  ResourceVersion : string;
  CreationTimestamp : option string;
  ManagedFields : list string;
  OwnerReferences : list OwnerReference
}.
End metav1.

(** ** k8s.io/api/policy/v1beta1 *)
Module policyv1beta1.
Record PodDisruptionBudgetSpec : Type := {
  MinAvailable : option intstr.IntOrString;
  Selector : option metav1.LabelSelector;
  MaxUnavailable : option intstr.IntOrString
}.

(** The [TypeMeta] of a budget stays empty and its [Status] is neither read
    nor written by the package; both are left out. *)
Record PodDisruptionBudget : Type := {
  ObjectMeta : metav1.ObjectMeta;
  Spec : PodDisruptionBudgetSpec
}.
End policyv1beta1.

Abbreviation PodDisruptionBudget := policyv1beta1.PodDisruptionBudget.

(** ** redis-operator/api/v1beta1

    The declarations of the custom resource are not part of the package; the
    fields below are the ones [poddisruption.go] reads, with the types its
    expressions give them ([*cr.Spec.Size], [*pdbParams.MinAvailable]:
    pointers to [int32]; [cr.Spec.RedisLeader.PodDisruptionBudget]: a
    pointer compared with [nil]).  The follower block carries the same
    optional budget as the leader block. *)
Module redisv1beta1.
Record RedisPodDisruptionBudget : Type := {
  Enabled : bool;
  MinAvailable : option Z;
  MaxUnavailable : option Z
}.

Record RedisLeader : Type := {
  LeaderPodDisruptionBudget : option RedisPodDisruptionBudget
}.

Record RedisFollower : Type := {
  FollowerPodDisruptionBudget : option RedisPodDisruptionBudget
}.

Record RedisClusterSpec : Type := {
  Size : option Z;
  Leader : RedisLeader;
  Follower : RedisFollower
}.

Record RedisCluster : Type := {
  ObjectMeta : metav1.ObjectMeta;
  Spec : RedisClusterSpec
}.
End redisv1beta1.

Abbreviation RedisCluster := redisv1beta1.RedisCluster.

(** ** Field assignments

    Go assigns to the fields of the object a pointer refers to; here each
    assignment builds the updated record. *)
Definition setMeta (f : metav1.ObjectMeta -> metav1.ObjectMeta)
    (pdb : PodDisruptionBudget) : PodDisruptionBudget :=
  {| policyv1beta1.ObjectMeta := f (policyv1beta1.ObjectMeta pdb);
     policyv1beta1.Spec := policyv1beta1.Spec pdb |}.

Definition setSpec
    (f : policyv1beta1.PodDisruptionBudgetSpec -> policyv1beta1.PodDisruptionBudgetSpec)
    (pdb : PodDisruptionBudget) : PodDisruptionBudget :=
  {| policyv1beta1.ObjectMeta := policyv1beta1.ObjectMeta pdb;
     policyv1beta1.Spec := f (policyv1beta1.Spec pdb) |}.

Definition withAnnotations (a : gmap string string) (m : metav1.ObjectMeta)
    : metav1.ObjectMeta :=
  {| metav1.Name := metav1.Name m;
     metav1.Namespace := metav1.Namespace m;
     metav1.UID := metav1.UID m;
     metav1.Labels := metav1.Labels m;
     metav1.Annotations := a;
     metav1.ResourceVersion := metav1.ResourceVersion m;
     metav1.CreationTimestamp := metav1.CreationTimestamp m;
     metav1.ManagedFields := metav1.ManagedFields m;
     metav1.OwnerReferences := metav1.OwnerReferences m |}.

Definition withUID (uid : string) (m : metav1.ObjectMeta) : metav1.ObjectMeta :=
  {| metav1.Name := metav1.Name m;
     metav1.Namespace := metav1.Namespace m;
     metav1.UID := uid;
     metav1.Labels := metav1.Labels m;
     metav1.Annotations := metav1.Annotations m;
     metav1.ResourceVersion := metav1.ResourceVersion m;
     metav1.CreationTimestamp := metav1.CreationTimestamp m;
     metav1.ManagedFields := metav1.ManagedFields m;
     metav1.OwnerReferences := metav1.OwnerReferences m |}.

Definition withResourceVersion (rv : string) (m : metav1.ObjectMeta)
    : metav1.ObjectMeta :=
  {| metav1.Name := metav1.Name m;
     metav1.Namespace := metav1.Namespace m;
     metav1.UID := metav1.UID m;
     metav1.Labels := metav1.Labels m;
     metav1.Annotations := metav1.Annotations m;
     metav1.ResourceVersion := rv;
     metav1.CreationTimestamp := metav1.CreationTimestamp m;
     metav1.ManagedFields := metav1.ManagedFields m;
     metav1.OwnerReferences := metav1.OwnerReferences m |}.

Definition withCreationTimestamp (t : option string) (m : metav1.ObjectMeta)
    : metav1.ObjectMeta :=
  {| metav1.Name := metav1.Name m;
     metav1.Namespace := metav1.Namespace m;
     metav1.UID := metav1.UID m;
     metav1.Labels := metav1.Labels m;
     metav1.Annotations := metav1.Annotations m;
     metav1.ResourceVersion := metav1.ResourceVersion m;
     metav1.CreationTimestamp := t;
     metav1.ManagedFields := metav1.ManagedFields m;
     metav1.OwnerReferences := metav1.OwnerReferences m |}.

Definition withManagedFields (mf : list string) (m : metav1.ObjectMeta)
    : metav1.ObjectMeta :=
  {| metav1.Name := metav1.Name m;
     metav1.Namespace := metav1.Namespace m;
     metav1.UID := metav1.UID m;
     metav1.Labels := metav1.Labels m;
     metav1.Annotations := metav1.Annotations m;
     metav1.ResourceVersion := metav1.ResourceVersion m;
     metav1.CreationTimestamp := metav1.CreationTimestamp m;
     metav1.ManagedFields := mf;
     metav1.OwnerReferences := metav1.OwnerReferences m |}.

Definition withOwnerReferences (refs : list metav1.OwnerReference)
    (m : metav1.ObjectMeta) : metav1.ObjectMeta :=
  {| metav1.Name := metav1.Name m;
     metav1.Namespace := metav1.Namespace m;
     metav1.UID := metav1.UID m;
     metav1.Labels := metav1.Labels m;
     metav1.Annotations := metav1.Annotations m;
     metav1.ResourceVersion := metav1.ResourceVersion m;
     metav1.CreationTimestamp := metav1.CreationTimestamp m;
     metav1.ManagedFields := metav1.ManagedFields m;
     metav1.OwnerReferences := refs |}.

Definition withMinAvailable (v : option intstr.IntOrString)
    (s : policyv1beta1.PodDisruptionBudgetSpec) : policyv1beta1.PodDisruptionBudgetSpec :=
  {| policyv1beta1.MinAvailable := v;
     policyv1beta1.Selector := policyv1beta1.Selector s;
     policyv1beta1.MaxUnavailable := policyv1beta1.MaxUnavailable s |}.

Definition withMaxUnavailable (v : option intstr.IntOrString)
    (s : policyv1beta1.PodDisruptionBudgetSpec) : policyv1beta1.PodDisruptionBudgetSpec :=
  {| policyv1beta1.MinAvailable := policyv1beta1.MinAvailable s;
     policyv1beta1.Selector := policyv1beta1.Selector s;
     policyv1beta1.MaxUnavailable := v |}.

(** Field access through the embedded [ObjectMeta], as Go promotes it. *)
Definition nameOf (pdb : PodDisruptionBudget) : string :=
  metav1.Name (policyv1beta1.ObjectMeta pdb).
Definition namespaceOf (pdb : PodDisruptionBudget) : string :=
  metav1.Namespace (policyv1beta1.ObjectMeta pdb).
Definition annotationsOf (pdb : PodDisruptionBudget) : gmap string string :=
  metav1.Annotations (policyv1beta1.ObjectMeta pdb).
Definition resourceVersionOf (pdb : PodDisruptionBudget) : string :=
  metav1.ResourceVersion (policyv1beta1.ObjectMeta pdb).
Definition creationTimestampOf (pdb : PodDisruptionBudget) : option string :=
  metav1.CreationTimestamp (policyv1beta1.ObjectMeta pdb).
Definition managedFieldsOf (pdb : PodDisruptionBudget) : list string :=
  metav1.ManagedFields (policyv1beta1.ObjectMeta pdb).

(** ** Helpers of the package that live in other files

    [getRedisLabels], [generateStatefulSetsAnots],
    [generateObjectMetaInformation], [LabelSelectors] and
    [redisClusterAsOwner] build metadata; the reconciler attaches what they
    return without looking inside.  The annotations of the definition are the
    map [generateStatefulSetsAnots] makes, so the loop of
    [patchPodDisruptionBudget] always writes into a map that exists. *)
Class MetaBuilder : Type := {
  getRedisLabels : string -> string -> string -> gmap string string;
  generateStatefulSetsAnots : gmap string string;
  generateObjectMetaInformation :
    string -> string -> gmap string string -> gmap string string -> metav1.ObjectMeta;
  LabelSelectors : gmap string string -> option metav1.LabelSelector;
  redisClusterAsOwner : RedisCluster -> metav1.OwnerReference
}.

(** Modelled from the spec: [AddOwnerRefToObject] is defined outside
    [poddisruption.go]; the owner reference is metadata for the backend's
    garbage collector, attached to the object's owner references. *)
Definition AddOwnerRefToObject (obj : PodDisruptionBudget) (ownerRef : metav1.OwnerReference)
    : PodDisruptionBudget :=
  setMeta (fun m => withOwnerReferences (metav1.OwnerReferences m ++ [ownerRef]) m) obj.

(** ** generatePodDisruptionBudgetDef *)

Definition FromInt32 (v : Z) : intstr.IntOrString :=
  {| intstr.Type_ := intstr.Int; intstr.IntVal := v; intstr.StrVal := "" |}.

Section Builder.
Context `{!MetaBuilder}.

(** [None] is the run-time panic of [*cr.Spec.Size] on a nil pointer, which
    is dereferenced only when neither bound has been set. *)
Definition generatePodDisruptionBudgetDef (cr : RedisCluster) (role : string)
    (pdbMeta : metav1.ObjectMeta) (pdbParams : redisv1beta1.RedisPodDisruptionBudget)
    : option PodDisruptionBudget :=
  let pdbTemplate :=
    {| policyv1beta1.ObjectMeta := pdbMeta;
       policyv1beta1.Spec :=
         {| policyv1beta1.MinAvailable := None;
            policyv1beta1.Selector :=
              LabelSelectors
                (<["app" := metav1.Name (redisv1beta1.ObjectMeta cr)]>
                   (<["role" := role]> ∅));
            policyv1beta1.MaxUnavailable := None |} |} in
  let pdbTemplate :=
    match redisv1beta1.MinAvailable pdbParams with
    | Some v => setSpec (withMinAvailable (Some (FromInt32 (int32 v)))) pdbTemplate
    | None => pdbTemplate
    end in
  let pdbTemplate :=
    match redisv1beta1.MaxUnavailable pdbParams with
    | Some v => setSpec (withMaxUnavailable (Some (FromInt32 (int32 v)))) pdbTemplate
    | None => pdbTemplate
    end in
  let quorum :=
    match policyv1beta1.MaxUnavailable (policyv1beta1.Spec pdbTemplate),
          policyv1beta1.MinAvailable (policyv1beta1.Spec pdbTemplate) with
    | None, None =>
        match redisv1beta1.Size (redisv1beta1.Spec cr) with
        | Some size =>
            Some (setSpec
                    (withMinAvailable (Some (FromInt32 (int32 (Z.quot size 2 + 1)))))
                    pdbTemplate)
        | None => None
        end
    | _, _ => Some pdbTemplate
    end in
  match quorum with
  | Some pdbTemplate => Some (AddOwnerRefToObject pdbTemplate (redisClusterAsOwner cr))
  | None => None
  end.
End Builder.

(** ** The typed clientset

    [generateK8sClient().PolicyV1beta1().PodDisruptionBudgets(namespace)] is
    an interface onto the API server; [S] is the server's state.  A read
    leaves the state alone, a write returns the state it leaves behind. *)
Module client.
Class PodDisruptionBudgetInterface (S : Type) : Type := {
  Get : string -> string -> S -> error + PodDisruptionBudget;
  Create : string -> PodDisruptionBudget -> S -> option error * S;
  Update : string -> PodDisruptionBudget -> S -> option error * S;
  Delete : string -> string -> S -> option error * S
}.
End client.

(** ** github.com/banzaicloud/k8s-objectmatcher/patch

    The annotator keeps, under one reserved annotation key, the JSON encoding
    of the object as it was last written.  To stamp an object it takes the
    reserved key out of the annotations, encodes the object, and stores the
    encoding under the key; a failing encoder is its only failure.  The
    patch maker is the library's interface [Maker]: [Calculate] compares a
    current and a modified object, [IsEmpty] inspects its result. *)
Module patch.
Definition LastAppliedConfig : string := "banzaicloud.com/last-applied".

Class Encoder : Type := {
  Marshal : PodDisruptionBudget -> error + string
}.

Class Maker : Type := {
  PatchResult : Type;
  Calculate : PodDisruptionBudget -> PodDisruptionBudget -> error + PatchResult;
  IsEmpty : PatchResult -> bool
}.

Definition SetLastAppliedAnnotation `{!Encoder} (obj : PodDisruptionBudget)
    : error + PodDisruptionBudget :=
  let annots := delete LastAppliedConfig (annotationsOf obj) in
  match Marshal (setMeta (withAnnotations annots) obj) with
  | inl err => inl err
  | inr modified =>
      inr (setMeta (withAnnotations (<[LastAppliedConfig := modified]> annots)) obj)
  end.
End patch.

(** ** Calls and the journal *)

(** A call that left the package, with what it was given and how it ended. *)
Inductive Event : Type :=
  | GetCall (namespace name : string) (r : error + PodDisruptionBudget)
  | CreateCall (namespace : string) (pdb : PodDisruptionBudget) (err : option error)
  | UpdateCall (namespace : string) (pdb : PodDisruptionBudget) (err : option error)
  | DeleteCall (namespace name : string) (err : option error)
  | CalculateCall (current modified : PodDisruptionBudget) (err : option error)
  | AnnotateCall (obj : PodDisruptionBudget) (err : option error).

Definition isWrite (ev : Event) : bool :=
  match ev with
  | CreateCall _ _ _ | UpdateCall _ _ _ | DeleteCall _ _ _ => true
  | _ => false
  end.

(** The create, update and delete calls of a journal, in order. *)
Definition writes (j : list Event) : list Event := List.filter isWrite j.

Definition errOf {A : Type} (r : error + A) : option error :=
  match r with
  | inl err => Some err
  | inr _ => None
  end.

Section World.
Context {S : Type}.

Record World : Type := {
  cluster : S;
  journal : list Event
}.

(** Computations that call out: state passing over the world. *)
Definition M (A : Type) : Type := World -> A * World.

Definition ret {A : Type} (a : A) : M A := fun w => (a, w).

Definition bind {A B : Type} (c : M A) (k : A -> M B) : M B :=
  fun w => let (a, w') := c w in k a w'.

Definition record (ev : Event) (w : World) : World :=
  {| cluster := cluster w; journal := journal w ++ [ev] |}.

Definition start (s : S) : World := {| cluster := s; journal := [] |}.
End World.

Arguments World S : clear implicits.
Arguments M S A : clear implicits.

Notation "'call' x <- c ; k" := (bind c (fun x => k))
  (at level 10, x name, c at level 100, k at level 200).

(** ** The reconciler *)
Section Reconciler.
Context {S : Type}.
Context `{!client.PodDisruptionBudgetInterface S}.
Context `{!patch.Encoder} `{!patch.Maker} `{!MetaBuilder}.

(** [patch.DefaultAnnotator.SetLastAppliedAnnotation(obj)], journalled. *)
Definition setLastAppliedAnnotation (obj : PodDisruptionBudget)
    : M S (error + PodDisruptionBudget) :=
  fun w =>
    let r := patch.SetLastAppliedAnnotation obj in
    (r, record (AnnotateCall obj (errOf r)) w).

(** [patch.DefaultPatchMaker.Calculate(current, modified)], journalled. *)
Definition calculate (current modified : PodDisruptionBudget)
    : M S (error + patch.PatchResult) :=
  fun w =>
    let r := patch.Calculate current modified in
    (r, record (CalculateCall current modified (errOf r)) w).

Definition GetPodDisruptionBudget (namespace pdb : string)
    : M S (error + PodDisruptionBudget) :=
  fun w =>
    let r := client.Get namespace pdb (cluster w) in
    (r, record (GetCall namespace pdb r) w).

Definition createPodDisruptionBudget (namespace : string) (pdb : PodDisruptionBudget)
    : M S (option error) :=
  fun w =>
    let (err, s) := client.Create namespace pdb (cluster w) in
    (err, {| cluster := s; journal := journal w ++ [CreateCall namespace pdb err] |}).

Definition updatePodDisruptionBudget (namespace : string) (pdb : PodDisruptionBudget)
    : M S (option error) :=
  fun w =>
    let (err, s) := client.Update namespace pdb (cluster w) in
    (err, {| cluster := s; journal := journal w ++ [UpdateCall namespace pdb err] |}).

Definition deletePodDisruptionBudget (namespace pdbName : string)
    : M S (option error) :=
  fun w =>
    let (err, s) := client.Delete namespace pdbName (cluster w) in
    (err, {| cluster := s; journal := journal w ++ [DeleteCall namespace pdbName err] |}).

(** The loop [for key, value := range storedPdb.Annotations] of
    [patchPodDisruptionBudget]: an entry of the stored object is written
    into the new object's annotations where the key is not present. *)
Definition copyMissingAnnotations (stored new : gmap string string)
    : gmap string string :=
  map_fold
    (fun key value acc =>
       match acc !! key with
       | Some _ => acc
       | None => <[key := value]> acc
       end)
    new stored.

(** The assignments made to [newPdb] once the patch is known not to be
    empty, up to the stamping of the annotation. *)
Definition adoptStoredMetadata (storedPdb newPdb : PodDisruptionBudget)
    : PodDisruptionBudget :=
  let newPdb := setMeta (withResourceVersion (resourceVersionOf storedPdb)) newPdb in
  let newPdb := setMeta (withCreationTimestamp (creationTimestampOf storedPdb)) newPdb in
  let newPdb := setMeta (withManagedFields (managedFieldsOf storedPdb)) newPdb in
  setMeta
    (withAnnotations
       (copyMissingAnnotations (annotationsOf storedPdb) (annotationsOf newPdb)))
    newPdb.

Definition patchPodDisruptionBudget (storedPdb newPdb : PodDisruptionBudget)
    (namespace : string) : M S (option error) :=
  call r <- calculate storedPdb newPdb;
  match r with
  | inl err => ret (Some err)
  | inr patchResult =>
      if negb (patch.IsEmpty patchResult) then
        let newPdb := adoptStoredMetadata storedPdb newPdb in
        call a <- setLastAppliedAnnotation newPdb;
        match a with
        | inl err => ret (Some err)
        | inr newPdb => updatePodDisruptionBudget namespace newPdb
        end
      else ret None
  end.

Definition CreateOrUpdatePodDisruptionBudget (pdbDef : PodDisruptionBudget)
    : M S (option error) :=
  call r <- GetPodDisruptionBudget (namespaceOf pdbDef) (nameOf pdbDef);
  match r with
  | inl err =>
      call a <- setLastAppliedAnnotation pdbDef;
      match a with
      | inl err' => ret (Some err')
      | inr pdbDef =>
          if errors.IsNotFound err
          then createPodDisruptionBudget (namespaceOf pdbDef) pdbDef
          else ret (Some err)
      end
  | inr storedPDB => patchPodDisruptionBudget storedPDB pdbDef (namespaceOf pdbDef)
  end.

(** The [else] branch of [ReconcileRedisPodDisruptionBudget]: check if one
    exists, and delete it. *)
Definition deleteIfPresent (namespace pdbName : string) : M S (option error) :=
  call r <- GetPodDisruptionBudget namespace pdbName;
  match r with
  | inr _ => deletePodDisruptionBudget namespace pdbName
  | inl err => if errors.IsNotFound err then ret None else ret (Some err)
  end.

Definition returning (c : M S (option error)) : M S outcome :=
  call err <- c; ret (Return err).

(** The condition of the [if]: the leader's budget is there and enabled. *)
Definition enabledBudget (cr : RedisCluster)
    : option redisv1beta1.RedisPodDisruptionBudget :=
  match redisv1beta1.LeaderPodDisruptionBudget
          (redisv1beta1.Leader (redisv1beta1.Spec cr)) with
  | Some pdbParams => if redisv1beta1.Enabled pdbParams then Some pdbParams else None
  | None => None
  end.

Definition ReconcileRedisPodDisruptionBudget (cr : RedisCluster) (role : string)
    : M S outcome :=
  let crName := metav1.Name (redisv1beta1.ObjectMeta cr) in
  let crNamespace := metav1.Namespace (redisv1beta1.ObjectMeta cr) in
  let pdbName := crName +:+ "-" +:+ role in
  match enabledBudget cr with
  | Some pdbParams =>
      let labels := getRedisLabels crName "cluster" role in
      let pdbMeta :=
        generateObjectMetaInformation pdbName crNamespace labels
          generateStatefulSetsAnots in
      match generatePodDisruptionBudgetDef cr role pdbMeta pdbParams with
      | Some pdbDef => returning (CreateOrUpdatePodDisruptionBudget pdbDef)
      | None => ret Panic
      end
  | None => returning (deleteIfPresent crNamespace pdbName)
  end.

(** The definition the enabled branch hands to
    [CreateOrUpdatePodDisruptionBudget]: its first three statements. *)
Definition desiredDefinition (cr : RedisCluster) (role : string)
    (pdbParams : redisv1beta1.RedisPodDisruptionBudget) : option PodDisruptionBudget :=
  let crName := metav1.Name (redisv1beta1.ObjectMeta cr) in
  let crNamespace := metav1.Namespace (redisv1beta1.ObjectMeta cr) in
  let pdbName := crName +:+ "-" +:+ role in
  let labels := getRedisLabels crName "cluster" role in
  let pdbMeta :=
    generateObjectMetaInformation pdbName crNamespace labels generateStatefulSetsAnots in
  generatePodDisruptionBudgetDef cr role pdbMeta pdbParams.
End Reconciler.


(** * Collaborators to run the reconciler against

    The theorems on the reconciler hold for every clientset, encoder and
    patch maker.  The collaborators below are the ones the operator is
    deployed with, reduced to what the reconciler can observe; they give the
    runs on which the reconciler is evaluated. *)

(** ** JSON documents

    A document is the list of its leaves: the path to a leaf and the text of
    the scalar found there.  Fields that [encoding/json] omits (empty strings
    and lists under [omitempty], nil pointers, null timestamps) have no
    leaf. *)
Module json.
Inductive Path : Type :=
  | MetadataName
  | MetadataNamespace
  | MetadataUID
  | MetadataLabel (key : string)
  | MetadataAnnotation (key : string)
  | MetadataResourceVersion
  | MetadataCreationTimestamp
  | MetadataManagedFields
  | MetadataOwnerReferences
  | SpecMinAvailable
  | SpecSelectorMatchLabel (key : string)
  | SpecMaxUnavailable.

#[global] Instance Path_eq_dec : EqDecision Path.
Proof. solve_decision. Defined.

Definition Doc : Type := list (Path * string).

(** The text of a document and its reading back. *)
Class Codec : Type := {
  print : Doc -> string;
  parse : string -> option Doc
}.

Definition nonEmpty (s : string) : option string :=
  if decide (s = "") then None else Some s.

Definition joined (l : list string) : option string :=
  match l with
  | [] => None
  | _ => Some (String.concat "," l)
  end.

Definition ownerText (o : metav1.OwnerReference) : string :=
  metav1.APIVersion o +:+ "/" +:+ metav1.Kind o +:+ "/" +:+ metav1.OwnerName o
    +:+ "/" +:+ metav1.OwnerUID o.

Definition intOrStringText (v : intstr.IntOrString) : string :=
  match intstr.Type_ v with
  | intstr.Int => pretty (intstr.IntVal v)
  | intstr.String => intstr.StrVal v
  end.

(** The leaf of an object's encoding at a path, if the encoding has one. *)
Definition field (obj : PodDisruptionBudget) (p : Path) : option string :=
  let m := policyv1beta1.ObjectMeta obj in
  let s := policyv1beta1.Spec obj in
  match p with
  | MetadataName => nonEmpty (metav1.Name m)
  | MetadataNamespace => nonEmpty (metav1.Namespace m)
  | MetadataUID => nonEmpty (metav1.UID m)
  | MetadataLabel key => metav1.Labels m !! key
  | MetadataAnnotation key => metav1.Annotations m !! key
  | MetadataResourceVersion => nonEmpty (metav1.ResourceVersion m)
  | MetadataCreationTimestamp => metav1.CreationTimestamp m
  | MetadataManagedFields => joined (metav1.ManagedFields m)
  | MetadataOwnerReferences => joined (ownerText <$> metav1.OwnerReferences m)
  | SpecMinAvailable => intOrStringText <$> policyv1beta1.MinAvailable s
  | SpecSelectorMatchLabel key =>
      match policyv1beta1.Selector s with
      | Some sel => metav1.MatchLabels sel !! key
      | None => None
      end
  | SpecMaxUnavailable => intOrStringText <$> policyv1beta1.MaxUnavailable s
  end.

Definition keys (m : gmap string string) : list string := (map_to_list m).*1.

(** The paths at which an object's encoding can have a leaf. *)
Definition paths (obj : PodDisruptionBudget) : list Path :=
  let m := policyv1beta1.ObjectMeta obj in
  let s := policyv1beta1.Spec obj in
  [MetadataName; MetadataNamespace; MetadataUID]
    ++ (MetadataLabel <$> keys (metav1.Labels m))
    ++ (MetadataAnnotation <$> keys (metav1.Annotations m))
    ++ [MetadataResourceVersion; MetadataCreationTimestamp;
        MetadataManagedFields; MetadataOwnerReferences; SpecMinAvailable]
    ++ match policyv1beta1.Selector s with
       | Some sel => SpecSelectorMatchLabel <$> keys (metav1.MatchLabels sel)
       | None => []
       end
    ++ [SpecMaxUnavailable].

Definition encode (obj : PodDisruptionBudget) : Doc :=
  omap (fun p => (fun v => (p, v)) <$> field obj p) (paths obj).
End json.

(** ** The object-matcher's JSON encoder and three-way patch maker

    [Calculate(current, modified)] encodes both objects, reads the original
    back from the last-applied annotation of [current] (the empty document
    when there is none) and makes the three-way merge patch: a field of the
    original that [modified] no longer has is a deletion, a field of
    [modified] that [current] lacks or holds with another value is a change.
    The patch is empty when it has neither. *)
Module objectmatcher.
Record MergePatch : Type := {
  deletions : list json.Path;
  changes : list (json.Path * string)
}.

Definition CreateThreeWayMergePatch (original : json.Doc)
    (modified current : PodDisruptionBudget) : MergePatch :=
  {| deletions :=
       (List.filter (fun e => bool_decide (json.field modified e.1 = None)) original).*1;
     changes :=
       List.filter (fun e => bool_decide (json.field current e.1 <> Some e.2))
         (json.encode modified) |}.

Section WithCodec.
Context `{!json.Codec}.

#[export] Instance encoder : patch.Encoder :=
  {| patch.Marshal := fun obj => inr (json.print (json.encode obj)) |}.

(** What the annotator makes of an object that does not carry the reserved
    annotation yet. *)
Definition stamped (obj : PodDisruptionBudget) : PodDisruptionBudget :=
  setMeta
    (withAnnotations
       (<[patch.LastAppliedConfig := json.print (json.encode obj)]> (annotationsOf obj)))
    obj.

Definition GetOriginalConfiguration (obj : PodDisruptionBudget) : error + json.Doc :=
  match annotationsOf obj !! patch.LastAppliedConfig with
  | None => inr []
  | Some text =>
      match json.parse text with
      | Some original => inr original
      | None => inl (MarshalError "last-applied annotation is not a document")
      end
  end.

#[export] Instance maker : patch.Maker :=
  {| patch.PatchResult := MergePatch;
     patch.Calculate := fun current modified =>
       match GetOriginalConfiguration current with
       | inl err => inl err
       | inr original => inr (CreateThreeWayMergePatch original modified current)
       end;
     patch.IsEmpty := fun p =>
       match deletions p, changes p with
       | [], [] => true
       | _, _ => false
       end |}.
End WithCodec.
End objectmatcher.

(** ** A line-oriented codec for documents

    One leaf per line, [path=text].  It reads back what it printed as long as
    no key holds [=] and no text holds a line break. *)
Module linecodec.
Definition pathText (p : json.Path) : string :=
  match p with
  | json.MetadataName => "metadata.name"
  | json.MetadataNamespace => "metadata.namespace"
  | json.MetadataUID => "metadata.uid"
  | json.MetadataLabel key => "metadata.labels." +:+ key
  | json.MetadataAnnotation key => "metadata.annotations." +:+ key
  | json.MetadataResourceVersion => "metadata.resourceVersion"
  | json.MetadataCreationTimestamp => "metadata.creationTimestamp"
  | json.MetadataManagedFields => "metadata.managedFields"
  | json.MetadataOwnerReferences => "metadata.ownerReferences"
  | json.SpecMinAvailable => "spec.minAvailable"
  | json.SpecSelectorMatchLabel key => "spec.selector.matchLabels." +:+ key
  | json.SpecMaxUnavailable => "spec.maxUnavailable"
  end.

Fixpoint stripPrefix (prefix s : string) : option string :=
  match prefix, s with
  | EmptyString, _ => Some s
  | String a prefix', String b s' =>
      if Ascii.eqb a b then stripPrefix prefix' s' else None
  | String _ _, EmptyString => None
  end.

Definition fixedPaths : list json.Path :=
  [json.MetadataName; json.MetadataNamespace; json.MetadataUID;
   json.MetadataResourceVersion;
   json.MetadataCreationTimestamp; json.MetadataManagedFields;
   json.MetadataOwnerReferences; json.SpecMinAvailable; json.SpecMaxUnavailable].

Definition keyedPaths : list (string -> json.Path) :=
  [json.MetadataLabel; json.MetadataAnnotation; json.SpecSelectorMatchLabel].

Definition parsePath (s : string) : option json.Path :=
  match List.find (fun p => String.eqb (pathText p) s) fixedPaths with
  | Some p => Some p
  | None =>
      List.fold_right
        (fun mk found =>
           match stripPrefix (pathText (mk "")) s with
           | Some key => Some (mk key)
           | None => found
           end)
        None keyedPaths
  end.

Definition lineBreak : Ascii.ascii := Ascii.ascii_of_nat 10.
Definition equalsSign : Ascii.ascii := Ascii.ascii_of_nat 61.

(** [s] cut at the first [c]: the text before it and the text after it. *)
Fixpoint cut (c : Ascii.ascii) (s : string) : option (string * string) :=
  match s with
  | EmptyString => None
  | String a s' =>
      if Ascii.eqb a c then Some (EmptyString, s')
      else match cut c s' with
           | Some (before, after) => Some (String a before, after)
           | None => None
           end
  end.

(** The lines of [s], each ended by a line break; [acc] is the line so far,
    last character first. *)
Fixpoint linesOf (acc : string) (s : string) : list string :=
  match s with
  | EmptyString => []
  | String a s' =>
      if Ascii.eqb a lineBreak
      then String.string_of_list_ascii (List.rev (String.list_ascii_of_string acc))
             :: linesOf EmptyString s'
      else linesOf (String a acc) s'
  end.

Definition printLeaf (e : json.Path * string) : string :=
  pathText e.1 +:+ String equalsSign (e.2 +:+ String lineBreak EmptyString).

Definition parseLeaf (line : string) : option (json.Path * string) :=
  match cut equalsSign line with
  | Some (path, text) =>
      match parsePath path with
      | Some p => Some (p, text)
      | None => None
      end
  | None => None
  end.

#[export] Instance codec : json.Codec :=
  {| json.print := fun d => String.concat "" (printLeaf <$> d);
     json.parse := fun s => mapM parseLeaf (linesOf EmptyString s) |}.
End linecodec.

(** ** The API server

    Modelled from the spec: the store behind the clientset is not part of the
    package.  It keeps one object per namespace and name, reports a missing
    object with a "not found" status, assigns the backend-owned fields when an
    object is created, and accepts an update only when it carries the
    resourceVersion of the stored object, giving the object a new one and
    keeping its uid. *)
Module apiserver.
Record State : Type := {
  objects : gmap (string * string) PodDisruptionBudget;
  revision : N
}.

Definition nextRevision (s : State) : N := (revision s + 1)%N.

Definition Get (namespace name : string) (s : State) : error + PodDisruptionBudget :=
  match objects s !! (namespace, name) with
  | Some obj => inr obj
  | None => inl (StatusNotFound name)
  end.

(** The object as the server stores it at its creation. *)
Definition storedAs (rev : N) (obj : PodDisruptionBudget) : PodDisruptionBudget :=
  setMeta
    (fun m =>
       withManagedFields ["redis-operator"]
         (withCreationTimestamp (Some ("t" +:+ pretty rev))
            (withResourceVersion (pretty rev)
               (withUID ("uid-" +:+ pretty rev) m))))
    obj.

Definition Create (namespace : string) (obj : PodDisruptionBudget) (s : State)
    : option error * State :=
  match objects s !! (namespace, nameOf obj) with
  | Some _ => (Some (StatusAlreadyExists (nameOf obj)), s)
  | None =>
      let rev := nextRevision s in
      (None, {| objects := <[(namespace, nameOf obj) := storedAs rev obj]> (objects s);
                revision := rev |})
  end.

Definition Update (namespace : string) (obj : PodDisruptionBudget) (s : State)
    : option error * State :=
  match objects s !! (namespace, nameOf obj) with
  | None => (Some (StatusNotFound (nameOf obj)), s)
  | Some old =>
      if decide (resourceVersionOf obj = resourceVersionOf old) then
        let rev := nextRevision s in
        (None, {| objects :=
                    <[(namespace, nameOf obj) :=
                        setMeta
                          (fun m =>
                             withResourceVersion (pretty rev)
                               (withUID (metav1.UID (policyv1beta1.ObjectMeta old)) m))
                          obj]> (objects s);
                  revision := rev |})
      else (Some (StatusConflict (nameOf obj)), s)
  end.

Definition Delete (namespace name : string) (s : State) : option error * State :=
  match objects s !! (namespace, name) with
  | None => (Some (StatusNotFound name), s)
  | Some _ =>
      (None, {| objects := delete (namespace, name) (objects s);
                revision := revision s |})
  end.

#[export] Instance clientset : client.PodDisruptionBudgetInterface State :=
  {| client.Get := Get; client.Create := Create;
     client.Update := Update; client.Delete := Delete |}.

Definition empty : State := {| objects := ∅; revision := 0 |}.

(** A clientset whose reads fail with the given error and whose writes are
    refused: an API server that cannot be reached. *)
Definition unreachable (err : error) : client.PodDisruptionBudgetInterface unit :=
  {| client.Get := fun _ _ _ => inl err;
     client.Create := fun _ _ s => (Some err, s);
     client.Update := fun _ _ s => (Some err, s);
     client.Delete := fun _ _ s => (Some err, s) |}.
End apiserver.

(** ** The operator's metadata helpers

    Modelled from the spec: the ObjectMetaBuilder supplies name, namespace,
    labels and owner reference for a cluster and a role; the metadata it
    returns is fresh, with no backend-owned field set. *)
Module redismeta.
#[export] Instance builder : MetaBuilder :=
  {| getRedisLabels := fun name setupType role =>
       <["app" := name]> (<["redis_setup_type" := setupType]> (<["role" := role]> ∅));
     generateStatefulSetsAnots :=
       <["redis.opstreelabs.in" := "true"]> (<["prometheus.io/scrape" := "true"]> ∅);
     generateObjectMetaInformation := fun name namespace labels annotations =>
       {| metav1.Name := name;
          metav1.Namespace := namespace;
          metav1.UID := "";
          metav1.Labels := labels;
          metav1.Annotations := annotations;
          metav1.ResourceVersion := "";
          metav1.CreationTimestamp := None;
          metav1.ManagedFields := [];
          metav1.OwnerReferences := [] |};
     LabelSelectors := fun labels => Some {| metav1.MatchLabels := labels |};
     redisClusterAsOwner := fun cr =>
       {| metav1.APIVersion := "redis.redis.opstreelabs.in/v1beta1";
          metav1.Kind := "RedisCluster";
          metav1.OwnerName := metav1.Name (redisv1beta1.ObjectMeta cr);
          metav1.OwnerUID := metav1.UID (redisv1beta1.ObjectMeta cr) |} |}.
End redismeta.

(** An encoder that fails on every object. *)
Definition failingEncoder (msg : string) : patch.Encoder :=
  {| patch.Marshal := fun _ => inl (MarshalError msg) |}.

(** What a write call carries to the server. *)
Definition written (ev : Event) : option PodDisruptionBudget :=
  match ev with
  | CreateCall _ pdb _ | UpdateCall _ pdb _ => Some pdb
  | _ => None
  end.

Definition isDelete (ev : Event) : bool :=
  match ev with
  | DeleteCall _ _ _ => true
  | _ => false
  end.

Definition isUpdate (ev : Event) : bool :=
  match ev with
  | UpdateCall _ _ _ => true
  | _ => false
  end.

(** How many update calls a journal holds. *)
Definition updateCalls (j : list Event) : nat := length (List.filter isUpdate j).

(** The two bounds of a budget. *)
Definition boundsOf (pdb : PodDisruptionBudget)
    : option intstr.IntOrString * option intstr.IntOrString :=
  (policyv1beta1.MinAvailable (policyv1beta1.Spec pdb),
   policyv1beta1.MaxUnavailable (policyv1beta1.Spec pdb)).

Definition isGet (ev : Event) : bool :=
  match ev with
  | GetCall _ _ _ => true
  | _ => false
  end.

(** The error a call ended with, if it failed. *)
Definition resultOf (ev : Event) : option error :=
  match ev with
  | GetCall _ _ r => errOf r
  | CreateCall _ _ err | UpdateCall _ _ err | DeleteCall _ _ err
  | CalculateCall _ _ err | AnnotateCall _ err => err
  end.

(** The namespace and name of the object a call to the server is about. *)
Definition targetOf (ev : Event) : option (string * string) :=
  match ev with
  | GetCall namespace name _ | DeleteCall namespace name _ => Some (namespace, name)
  | CreateCall namespace pdb _ | UpdateCall namespace pdb _ => Some (namespace, nameOf pdb)
  | _ => None
  end.

(** A clientset that reads from the API server and whose writes are refused
    with the given error. *)
Definition readOnlyClient (err : error) : client.PodDisruptionBudgetInterface apiserver.State :=
  {| client.Get := apiserver.Get;
     client.Create := fun _ _ s => (Some err, s);
     client.Update := fun _ _ s => (Some err, s);
     client.Delete := fun _ _ s => (Some err, s) |}.

(** ** Scenarios

    A cluster [redis] in namespace [default], reconciled against the API
    server above with the object-matcher's encoder and patch maker. *)
Module scenario.
Import linecodec objectmatcher apiserver redismeta.

Definition budget (enabled : bool) (minAvailable maxUnavailable : option Z)
    : redisv1beta1.RedisPodDisruptionBudget :=
  {| redisv1beta1.Enabled := enabled;
     redisv1beta1.MinAvailable := minAvailable;
     redisv1beta1.MaxUnavailable := maxUnavailable |}.

Definition redis (size : Z) (leader : option redisv1beta1.RedisPodDisruptionBudget)
    : RedisCluster :=
  {| redisv1beta1.ObjectMeta :=
       {| metav1.Name := "redis";
          metav1.Namespace := "default";
          metav1.UID := "6f1c";
          metav1.Labels := ∅;
          metav1.Annotations := ∅;
          metav1.ResourceVersion := "";
          metav1.CreationTimestamp := None;
          metav1.ManagedFields := [];
          metav1.OwnerReferences := [] |};
     redisv1beta1.Spec :=
       {| redisv1beta1.Size := Some size;
          redisv1beta1.Leader := {| redisv1beta1.LeaderPodDisruptionBudget := leader |};
          redisv1beta1.Follower := {| redisv1beta1.FollowerPodDisruptionBudget := None |} |} |}.

Definition quorumBudget : option redisv1beta1.RedisPodDisruptionBudget :=
  Some (budget true None None).

(** One reconcile of the leader's budget against an API server state. *)
Definition reconcile (cr : RedisCluster) (s : apiserver.State)
    : outcome * World apiserver.State :=
  ReconcileRedisPodDisruptionBudget cr "leader" (start s).

(** The server after the budget of a one-node cluster has been created. *)
Definition created : apiserver.State := cluster (reconcile (redis 1 quorumBudget) empty).2.

(** Someone else puts an annotation on the stored object. *)
Definition annotateStored (key value : string) (s : apiserver.State) : apiserver.State :=
  {| objects :=
       alter
         (fun obj =>
            setMeta (fun m => withAnnotations (<[key := value]> (metav1.Annotations m)) m) obj)
         ("default", "redis-leader") (objects s);
     revision := revision s |}.

Definition labelled : apiserver.State := annotateStored "team" "payments" created.

(** The cluster has grown to three nodes: the stored budget is out of date. *)
Definition grown : RedisCluster := redis 3 quorumBudget.

(** The same reconcile with an encoder that fails. *)
Definition reconcileUnencodable (cr : RedisCluster) (s : apiserver.State)
    : outcome * World apiserver.State :=
  @ReconcileRedisPodDisruptionBudget _ clientset (failingEncoder "unsupported value")
    maker builder cr "leader" (start s).

(** The same reconcile with an API server that cannot be reached. *)
Definition reconcileUnreachable (enc : patch.Encoder) (cr : RedisCluster)
    : outcome * World unit :=
  @ReconcileRedisPodDisruptionBudget _ (unreachable (TransportError "i/o timeout")) enc
    maker builder cr "leader" (start tt).

(** The cluster with its size left out. *)
Definition unsized (leader : option redisv1beta1.RedisPodDisruptionBudget) : RedisCluster :=
  {| redisv1beta1.ObjectMeta := redisv1beta1.ObjectMeta (redis 0 leader);
     redisv1beta1.Spec :=
       {| redisv1beta1.Size := None;
          redisv1beta1.Leader := {| redisv1beta1.LeaderPodDisruptionBudget := leader |};
          redisv1beta1.Follower := {| redisv1beta1.FollowerPodDisruptionBudget := None |} |} |}.

(** The same reconcile with writes refused by the server. *)
Definition reconcileReadOnly (cr : RedisCluster) (s : apiserver.State)
    : outcome * World apiserver.State :=
  @ReconcileRedisPodDisruptionBudget _ (readOnlyClient (TransportError "forbidden"))
    encoder maker builder cr "leader" (start s).
End scenario.


(** * Properties *)

Ltac reconciler_unfold :=
  unfold ReconcileRedisPodDisruptionBudget, returning, deleteIfPresent,
    CreateOrUpdatePodDisruptionBudget, patchPodDisruptionBudget,
    GetPodDisruptionBudget, createPodDisruptionBudget, updatePodDisruptionBudget,
    deletePodDisruptionBudget, setLastAppliedAnnotation, calculate,
    bind, ret, record, start in *.

(** Membership in a journal that has been computed: one case per entry. *)
Ltac journal_cases :=
  simplify_eq/=;
  repeat match goal with
         | H : _ \/ _ |- _ => destruct H as [H|H]
         | H : False |- _ => destruct H
         | H : @eq Event _ _ |- _ => discriminate H
         | H : @eq Event _ _ |- _ => injection H as ?; subst
         end;
  try subst.

(** The value a closed term evaluates to, taken out of [Some] or [inr]. *)
Ltac the_value_of t :=
  let v := eval vm_compute in t in
  lazymatch v with
  | Some ?x => exact x
  | inr ?x => exact x
  end.

Section Properties.
Context {S : Type}.
Context `{!client.PodDisruptionBudgetInterface S}.
Context `{!patch.Encoder} `{!patch.Maker} `{!MetaBuilder}.


(** What the disabled branch does, by the result of its get call. *)
Lemma disabled_run (cr : RedisCluster) (role : string) (s : S) :
  enabledBudget cr = None ->
  let namespace := metav1.Namespace (redisv1beta1.ObjectMeta cr) in
  let name := metav1.Name (redisv1beta1.ObjectMeta cr) +:+ "-" +:+ role in
  let run := ReconcileRedisPodDisruptionBudget cr role (start s) in
  match client.Get namespace name s with
  | inr _ =>
      exists res, writes (journal run.2) = [DeleteCall namespace name res]
                  /\ run.1 = Return res
  | inl err =>
      writes (journal run.2) = [] /\ cluster run.2 = s
      /\ run.1 = Return (if errors.IsNotFound err then None else Some err)
  end.
Proof.
  intros Hoff namespace name run.
  subst run namespace name. reconciler_unfold. rewrite Hoff. simpl.
  destruct (client.Get _ _ s) as [err|stored]; simpl.
  - destruct (errors.IsNotFound err); simpl; auto.
  - destruct (client.Delete _ _ s) as [err s']; simpl. eauto.
Qed.


(** *** The annotation loop *)

Lemma copyMissingAnnotations_union (stored new : gmap string string) :
  copyMissingAnnotations stored new = new ∪ stored.
Proof.
  unfold copyMissingAnnotations.
  apply (map_fold_weak_ind (fun acc m => acc = new ∪ m)).
  - symmetry. apply (right_id_L ∅ (∪)).
  - intros key value m acc Hfresh ->.
    destruct ((new ∪ m) !! key) as [v|] eqn:Hkey.
    + apply lookup_union_Some_raw in Hkey as [Hnew|[_ Hm]]; [|congruence].
      apply map_eq. intros k. rewrite !lookup_union.
      destruct (decide (k = key)) as [->|Hne].
      * rewrite Hnew, Hfresh, lookup_insert_eq. by destruct v.
      * by rewrite lookup_insert_ne.
    + apply lookup_union_None in Hkey as [Hnew _].
      by rewrite insert_union_r.
Qed.


(** *** The annotator touches the reserved annotation only *)

Lemma SetLastAppliedAnnotation_meta (obj stamped : PodDisruptionBudget) :
  patch.SetLastAppliedAnnotation obj = inr stamped ->
  resourceVersionOf stamped = resourceVersionOf obj
  /\ creationTimestampOf stamped = creationTimestampOf obj
  /\ managedFieldsOf stamped = managedFieldsOf obj
  /\ nameOf stamped = nameOf obj
  /\ namespaceOf stamped = namespaceOf obj
  /\ policyv1beta1.Spec stamped = policyv1beta1.Spec obj.
Proof.
  unfold patch.SetLastAppliedAnnotation.
  destruct (patch.Marshal _); intros [= <-]. by repeat split.
Qed.


Lemma adoptStoredMetadata_meta (storedPdb newPdb : PodDisruptionBudget) :
  resourceVersionOf (adoptStoredMetadata storedPdb newPdb) = resourceVersionOf storedPdb
  /\ creationTimestampOf (adoptStoredMetadata storedPdb newPdb) = creationTimestampOf storedPdb
  /\ managedFieldsOf (adoptStoredMetadata storedPdb newPdb) = managedFieldsOf storedPdb
  /\ nameOf (adoptStoredMetadata storedPdb newPdb) = nameOf newPdb
  /\ namespaceOf (adoptStoredMetadata storedPdb newPdb) = namespaceOf newPdb
  /\ policyv1beta1.Spec (adoptStoredMetadata storedPdb newPdb) = policyv1beta1.Spec newPdb
  /\ annotationsOf (adoptStoredMetadata storedPdb newPdb)
     = copyMissingAnnotations (annotationsOf storedPdb) (annotationsOf newPdb).
Proof. by repeat split. Qed.

(** *** The budget definition *)



Lemma generatePodDisruptionBudgetDef_bounds (cr : RedisCluster) (role : string)
    (pdbMeta : metav1.ObjectMeta) (pdbParams : redisv1beta1.RedisPodDisruptionBudget)
    (pdb : PodDisruptionBudget) :
  generatePodDisruptionBudgetDef cr role pdbMeta pdbParams = Some pdb ->
  boundsOf pdb =
  match redisv1beta1.MinAvailable pdbParams, redisv1beta1.MaxUnavailable pdbParams with
  | None, None =>
      (FromInt32 <$> ((fun size => int32 (Z.quot size 2 + 1))
                        <$> redisv1beta1.Size (redisv1beta1.Spec cr)), None)
  | minAvailable, maxUnavailable =>
      (FromInt32 <$> (int32 <$> minAvailable), FromInt32 <$> (int32 <$> maxUnavailable))
  end.
Proof.
  unfold generatePodDisruptionBudgetDef.
  destruct (redisv1beta1.MinAvailable pdbParams), (redisv1beta1.MaxUnavailable pdbParams);
    simpl; try (intros [= <-]; reflexivity).
  destruct (redisv1beta1.Size _); simpl; intros [= <-]; reflexivity.
Qed.

(** The metadata of the definition is the metadata handed in, with the owner
    reference added. *)
Lemma generatePodDisruptionBudgetDef_meta (cr : RedisCluster)
    (role : string) (pdbMeta : metav1.ObjectMeta)
    (pdbParams : redisv1beta1.RedisPodDisruptionBudget) (pdb : PodDisruptionBudget) :
  generatePodDisruptionBudgetDef cr role pdbMeta pdbParams = Some pdb ->
  policyv1beta1.ObjectMeta pdb
  = withOwnerReferences (metav1.OwnerReferences pdbMeta ++ [redisClusterAsOwner cr]) pdbMeta.
Proof.
  unfold generatePodDisruptionBudgetDef.
  destruct (redisv1beta1.MinAvailable pdbParams), (redisv1beta1.MaxUnavailable pdbParams);
    simpl; try (intros [= <-]; reflexivity).
  destruct (redisv1beta1.Size _); simpl; intros [= <-]; reflexivity.
Qed.

(** *** The reconcile routine *)

(** C9. If stamping the last-applied annotation fails, the reconcile returns
    the stamping error, no create, update or delete call has been issued, and
    the server's state is the one the invocation started from. *)
Theorem C9_stamping_failure_aborts_before_any_write (cr : RedisCluster) (role : string)
    (s : S) (obj : PodDisruptionBudget) (err : error) :
  let run := ReconcileRedisPodDisruptionBudget cr role (start s) in
  In (AnnotateCall obj (Some err)) (journal run.2) ->
  run.1 = Return (Some err) /\ writes (journal run.2) = [] /\ cluster run.2 = s.
Proof.
  intros run. subst run. reconciler_unfold.
  repeat case_match; intros Hin; journal_cases; auto.
Qed.

(** C5. Every update call carries the resourceVersion, creationTimestamp and
    managedFields of the object that the invocation's one get call returned. *)
Theorem C5_update_carries_backend_owned_fields (cr : RedisCluster) (role : string)
    (s : S) (namespace : string) (sent : PodDisruptionBudget) (res : option error) :
  let run := ReconcileRedisPodDisruptionBudget cr role (start s) in
  In (UpdateCall namespace sent res) (journal run.2) ->
  exists name stored rest,
    client.Get namespace name s = inr stored
    /\ journal run.2 = GetCall namespace name (inr stored) :: rest
    /\ (forall namespace' name' r, ~ In (GetCall namespace' name' r) rest)
    /\ resourceVersionOf sent = resourceVersionOf stored
    /\ creationTimestampOf sent = creationTimestampOf stored
    /\ managedFieldsOf sent = managedFieldsOf stored.
Proof.
  intros run. subst run. reconciler_unfold.
  repeat case_match; intros Hin; journal_cases.
  match goal with
  | Hs : patch.SetLastAppliedAnnotation _ = inr _ |- _ =>
      apply SetLastAppliedAnnotation_meta in Hs as (Hrv & Hct & Hmf & _)
  end.
  do 3 eexists. split; [eassumption|]. split; [reflexivity|].
  split; [intros ? ? ? Hg; journal_cases|].
  rewrite Hrv, Hct, Hmf. by repeat split.
Qed.

(** C8, as the code has it.  When the fetch fails with an error other than
    "not found", no create, update or delete call is made and the server's
    state is left alone; the fetch error is returned unless the stamping of
    the desired object, which the enabled branch does before it looks at the
    kind of error, fails: then the stamping error is returned. *)
Theorem C8_fetch_error_is_returned_unless_stamping_fails (cr : RedisCluster)
    (role : string) (s : S) (namespace name : string) (err : error) :
  let run := ReconcileRedisPodDisruptionBudget cr role (start s) in
  In (GetCall namespace name (inl err)) (journal run.2) ->
  errors.IsNotFound err = false ->
  writes (journal run.2) = [] /\ cluster run.2 = s
  /\ ((forall obj err', ~ In (AnnotateCall obj (Some err')) (journal run.2)) ->
      run.1 = Return (Some err))
  /\ (forall obj err', In (AnnotateCall obj (Some err')) (journal run.2) ->
      run.1 = Return (Some err')).
Proof.
  intros run. subst run. reconciler_unfold.
  repeat case_match; intros Hin Hnf; journal_cases;
    repeat split; try reflexivity; try congruence;
    try (intros ? ? Ha; journal_cases; reflexivity);
    try (intros Hno; exfalso; eapply Hno; simpl; eauto).
Qed.

(** What the enabled branch does, by the results of the calls it makes. *)
Lemma enabled_run (cr : RedisCluster) (role : string) (s : S)
    (pdbParams : redisv1beta1.RedisPodDisruptionBudget) (pdbDef : PodDisruptionBudget) :
  enabledBudget cr = Some pdbParams ->
  desiredDefinition cr role pdbParams = Some pdbDef ->
  let run := ReconcileRedisPodDisruptionBudget cr role (start s) in
  let namespace := namespaceOf pdbDef in
  match client.Get namespace (nameOf pdbDef) s with
  | inl err =>
      match patch.SetLastAppliedAnnotation pdbDef with
      | inr stamped =>
          if errors.IsNotFound err
          then exists res, writes (journal run.2) = [CreateCall namespace stamped res]
                           /\ run.1 = Return res
          else writes (journal run.2) = [] /\ run.1 = Return (Some err)
      | inl err' => writes (journal run.2) = [] /\ run.1 = Return (Some err')
      end
  | inr stored =>
      In (CalculateCall stored pdbDef (errOf (patch.Calculate stored pdbDef)))
         (journal run.2)
      /\ match patch.Calculate stored pdbDef with
         | inl err => writes (journal run.2) = [] /\ run.1 = Return (Some err)
         | inr patchResult =>
             if patch.IsEmpty patchResult
             then writes (journal run.2) = [] /\ run.1 = Return None
             else
               match patch.SetLastAppliedAnnotation (adoptStoredMetadata stored pdbDef) with
               | inr stamped =>
                   exists res, writes (journal run.2) = [UpdateCall namespace stamped res]
                               /\ run.1 = Return res
               | inl err' => writes (journal run.2) = [] /\ run.1 = Return (Some err')
               end
         end
  end.
Proof.
  intros Hon Hdef run namespace. subst run namespace.
  unfold desiredDefinition in Hdef. reconciler_unfold. rewrite Hon, Hdef. simpl.
  destruct (client.Get _ _ s) as [err|stored]; simpl.
  - destruct (patch.SetLastAppliedAnnotation pdbDef) as [err'|stamped] eqn:Hs; simpl; [done|].
    apply SetLastAppliedAnnotation_meta in Hs as (_ & _ & _ & _ & -> & _).
    destruct (errors.IsNotFound err); simpl; [|done].
    destruct (client.Create _ _ s); simpl. eauto.
  - destruct (patch.Calculate stored pdbDef) as [err|patchResult]; simpl; [auto|].
    destruct (patch.IsEmpty patchResult); simpl; [auto|].
    destruct (patch.SetLastAppliedAnnotation _) as [err'|stamped]; simpl; [auto|].
    destruct (client.Update _ _ s); simpl. eauto 6.
Qed.


(** C3, as the code has it.  The patch is calculated from the stored object
    and the desired definition as it was built: nothing of the stored
    object has been copied into it and it has not been stamped.  The stored
    metadata is adopted and the annotation stamped only afterwards, and only
    when the patch is not empty, on the way to the update call; what is
    compared is the patch maker's business. *)
Theorem C3_patch_is_calculated_before_the_merge (cr : RedisCluster) (role : string)
    (s : S) (current modified : PodDisruptionBudget) (err : option error) :
  let run := ReconcileRedisPodDisruptionBudget cr role (start s) in
  In (CalculateCall current modified err) (journal run.2) ->
  exists pdbParams,
    enabledBudget cr = Some pdbParams
    /\ desiredDefinition cr role pdbParams = Some modified
    /\ client.Get (namespaceOf modified) (nameOf modified) s = inr current
    /\ err = errOf (patch.Calculate current modified)
    /\ forall namespace sent res,
         In (UpdateCall namespace sent res) (journal run.2) ->
         patch.SetLastAppliedAnnotation (adoptStoredMetadata current modified) = inr sent
         /\ exists patchResult,
              patch.Calculate current modified = inr patchResult
              /\ patch.IsEmpty patchResult = false.
Proof.
  intros run. subst run. unfold desiredDefinition. reconciler_unfold.
  repeat case_match; intros Hin; journal_cases;
    (eexists; split; [reflexivity|]; split; [eassumption|]; split; [eassumption|];
     split; [match goal with
             | Hc : patch.Calculate _ _ = _ |- _ => by rewrite Hc
             end|]);
    intros ? ? ? Hu; journal_cases.
  split; [assumption|]. eexists. split; [eassumption|].
  by destruct (patch.IsEmpty _).
Qed.


(** What a run writes follows from the leader's budget and the cluster size:
    deletes when the budget is missing or disabled, and otherwise objects
    whose bounds are those of the definition built from the leader's
    budget. *)
Lemma writes_follow_the_leader_budget (cr : RedisCluster) (role : string) (s : S)
    (ev : Event) :
  In ev (writes (journal (ReconcileRedisPodDisruptionBudget cr role (start s)).2)) ->
  match enabledBudget cr with
  | None => isDelete ev = true
  | Some pdbParams =>
      exists pdbDef pdb,
        desiredDefinition cr role pdbParams = Some pdbDef
        /\ written ev = Some pdb /\ boundsOf pdb = boundsOf pdbDef
  end.
Proof.
  unfold desiredDefinition. reconciler_unfold.
  repeat case_match; intros Hin; journal_cases; try reflexivity;
    match goal with
    | Hs : patch.SetLastAppliedAnnotation _ = inr _ |- _ =>
        apply SetLastAppliedAnnotation_meta in Hs as (_ & _ & _ & _ & _ & Hs);
        do 2 eexists; (split; [reflexivity|]); (split; [reflexivity|]);
        unfold boundsOf; by rewrite Hs
    end.
Qed.

(** C10. The enabled flag and the bounds come from the leader's budget
    whatever the role: for two clusters with the same leader block and size
    (their follower blocks may differ) and any two roles, the enabled check
    has the same outcome, the definitions built carry the same bounds, and
    whatever the two invocations write is a delete in both (budget missing or
    disabled) or an object with the same bounds in both.  Inside
    [generatePodDisruptionBudgetDef] the role reaches the selector only: from
    the same metadata, two roles give the same metadata and bounds.  (The
    name suffix and the labels are made from the role before that.) *)
Theorem C10_role_does_not_affect_enablement_or_bounds (cr1 cr2 : RedisCluster)
    (role1 role2 : string) (s1 s2 : S) :
  redisv1beta1.Leader (redisv1beta1.Spec cr1) = redisv1beta1.Leader (redisv1beta1.Spec cr2) ->
  redisv1beta1.Size (redisv1beta1.Spec cr1) = redisv1beta1.Size (redisv1beta1.Spec cr2) ->
  let run1 := ReconcileRedisPodDisruptionBudget cr1 role1 (start s1) in
  let run2 := ReconcileRedisPodDisruptionBudget cr2 role2 (start s2) in
  enabledBudget cr1 = enabledBudget cr2
  /\ (forall pdbMeta1 pdbMeta2 pdbParams,
        boundsOf <$> generatePodDisruptionBudgetDef cr1 role1 pdbMeta1 pdbParams
        = boundsOf <$> generatePodDisruptionBudgetDef cr2 role2 pdbMeta2 pdbParams)
  /\ (forall ev1 ev2,
        In ev1 (writes (journal run1.2)) -> In ev2 (writes (journal run2.2)) ->
        match redisv1beta1.LeaderPodDisruptionBudget
                (redisv1beta1.Leader (redisv1beta1.Spec cr1)) with
        | Some pdbParams =>
            if redisv1beta1.Enabled pdbParams
            then exists pdb1 pdb2,
                   written ev1 = Some pdb1 /\ written ev2 = Some pdb2
                   /\ boundsOf pdb1 = boundsOf pdb2
            else isDelete ev1 = true /\ isDelete ev2 = true
        | None => isDelete ev1 = true /\ isDelete ev2 = true
        end)
  /\ (forall pdbMeta pdbParams pdb1 pdb2,
        generatePodDisruptionBudgetDef cr1 role1 pdbMeta pdbParams = Some pdb1 ->
        generatePodDisruptionBudgetDef cr1 role2 pdbMeta pdbParams = Some pdb2 ->
        policyv1beta1.ObjectMeta pdb1 = policyv1beta1.ObjectMeta pdb2
        /\ boundsOf pdb1 = boundsOf pdb2).
Proof.
  intros Hleader Hsize run1 run2.
  assert (Hon : enabledBudget cr1 = enabledBudget cr2)
    by (unfold enabledBudget; by rewrite Hleader).
  assert (Hgen : forall pdbMeta1 pdbMeta2 pdbParams,
             boundsOf <$> generatePodDisruptionBudgetDef cr1 role1 pdbMeta1 pdbParams
             = boundsOf <$> generatePodDisruptionBudgetDef cr2 role2 pdbMeta2 pdbParams).
  { intros pdbMeta1 pdbMeta2 pdbParams.
    destruct (generatePodDisruptionBudgetDef cr1 _ _ _) as [pdb1|] eqn:Hg1,
             (generatePodDisruptionBudgetDef cr2 _ _ _) as [pdb2|] eqn:Hg2; simpl.
    - apply generatePodDisruptionBudgetDef_bounds in Hg1, Hg2. by rewrite Hg1, Hg2, Hsize.
    - exfalso. revert Hg1 Hg2. unfold generatePodDisruptionBudgetDef. rewrite Hsize.
      repeat case_match; simplify_eq/=; congruence.
    - exfalso. revert Hg1 Hg2. unfold generatePodDisruptionBudgetDef. rewrite Hsize.
      repeat case_match; simplify_eq/=; congruence.
    - reflexivity. }
  split; [exact Hon|]. split; [exact Hgen|]. split; cycle 1.
  { intros pdbMeta pdbParams pdb1 pdb2 Hg1 Hg2. split.
    - apply generatePodDisruptionBudgetDef_meta in Hg1, Hg2. congruence.
    - apply generatePodDisruptionBudgetDef_bounds in Hg1, Hg2. congruence. }
  intros ev1 ev2 Hin1%writes_follow_the_leader_budget Hin2%writes_follow_the_leader_budget.
  rewrite <- Hon in Hin2. unfold enabledBudget in Hin1, Hin2.
  destruct (redisv1beta1.LeaderPodDisruptionBudget _) as [pdbParams|]; [|done].
  destruct (redisv1beta1.Enabled pdbParams); [|done].
  destruct Hin1 as (def1 & pdb1 & Hd1 & Hw1 & Hb1), Hin2 as (def2 & pdb2 & Hd2 & Hw2 & Hb2).
  exists pdb1, pdb2. split; [done|]. split; [done|].
  rewrite Hb1, Hb2. unfold desiredDefinition in Hd1, Hd2.
  specialize (Hgen
    (generateObjectMetaInformation
       (metav1.Name (redisv1beta1.ObjectMeta cr1) +:+ "-" +:+ role1)
       (metav1.Namespace (redisv1beta1.ObjectMeta cr1))
       (getRedisLabels (metav1.Name (redisv1beta1.ObjectMeta cr1)) "cluster" role1)
       generateStatefulSetsAnots)
    (generateObjectMetaInformation
       (metav1.Name (redisv1beta1.ObjectMeta cr2) +:+ "-" +:+ role2)
       (metav1.Namespace (redisv1beta1.ObjectMeta cr2))
       (getRedisLabels (metav1.Name (redisv1beta1.ObjectMeta cr2)) "cluster" role2)
       generateStatefulSetsAnots)
    pdbParams).
  rewrite Hd1, Hd2 in Hgen. simpl in Hgen. congruence.
Qed.

End Properties.

(** ** The routine as a whole *)
Section Routine.
Context {S : Type}.
Context `{!client.PodDisruptionBudgetInterface S}.
Context `{!patch.Encoder} `{!patch.Maker} `{!MetaBuilder}.

(** What a stamped object is made of. *)
Lemma SetLastAppliedAnnotation_inr (obj stamped : PodDisruptionBudget) :
  patch.SetLastAppliedAnnotation obj = inr stamped ->
  exists text,
    patch.Marshal
      (setMeta (withAnnotations (delete patch.LastAppliedConfig (annotationsOf obj))) obj)
    = inr text
    /\ stamped =
       setMeta
         (withAnnotations
            (<[patch.LastAppliedConfig := text]>
               (delete patch.LastAppliedConfig (annotationsOf obj))))
         obj.
Proof.
  unfold patch.SetLastAppliedAnnotation.
  destruct (patch.Marshal _) as [err|text]; intros [= <-]. eauto.
Qed.



(** X2. The result of the write call, failure or success, is what the
    invocation returns. *)
Theorem write_result_is_returned (cr : RedisCluster) (role : string) (s : S) (ev : Event) :
  let run := ReconcileRedisPodDisruptionBudget cr role (start s) in
  In ev (writes (journal run.2)) ->
  run.1 = Return (resultOf ev).
Proof.
  intros run. subst run. reconciler_unfold.
  repeat case_match; intros Hin; journal_cases; reflexivity.
Qed.

(** X3. An error that is returned is the error of one of the calls made:
    the routine makes up no error of its own. *)
Theorem returned_error_is_the_error_of_a_call (cr : RedisCluster) (role : string) (s : S)
    (err : error) :
  let run := ReconcileRedisPodDisruptionBudget cr role (start s) in
  run.1 = Return (Some err) ->
  exists ev, In ev (journal run.2) /\ resultOf ev = Some err.
Proof.
  intros run. subst run. reconciler_unfold.
  repeat case_match; intros Hret; simplify_eq/=;
    first [ eexists; split; [left; reflexivity|reflexivity]
          | eexists; split; [right; left; reflexivity|reflexivity]
          | eexists; split; [do 2 right; left; reflexivity|reflexivity]
          | eexists; split; [do 3 right; left; reflexivity|reflexivity] ].
Qed.

(** X4. Success hides one failure only: when the invocation returns [nil],
    every call it made succeeded, except that its get call may have reported
    "not found". *)
Theorem success_means_every_call_succeeded (cr : RedisCluster) (role : string) (s : S)
    (ev : Event) :
  let run := ReconcileRedisPodDisruptionBudget cr role (start s) in
  run.1 = Return None ->
  In ev (journal run.2) ->
  resultOf ev = None
  \/ exists namespace name err,
       ev = GetCall namespace name (inl err) /\ errors.IsNotFound err = true.
Proof.
  intros run. subst run. reconciler_unfold.
  repeat case_match; intros Hret Hin; journal_cases;
    first [by left | right; eauto].
Qed.

(** X5. The write call is about the object the get call asked for: same
    namespace, same name. *)
Theorem write_addresses_the_object_fetched (cr : RedisCluster) (role : string) (s : S)
    (namespace name : string) (r : error + PodDisruptionBudget) (ev : Event) :
  let run := ReconcileRedisPodDisruptionBudget cr role (start s) in
  In (GetCall namespace name r) (journal run.2) ->
  In ev (writes (journal run.2)) ->
  targetOf ev = Some (namespace, name).
Proof.
  intros run. subst run. reconciler_unfold.
  repeat case_match; intros Hget Hin; journal_cases; try reflexivity;
    match goal with
    | Hs : patch.SetLastAppliedAnnotation _ = inr _ |- _ =>
        apply SetLastAppliedAnnotation_meta in Hs as (_ & _ & _ & Hname & Hns & _)
    end;
    simpl; rewrite ?Hname, ?Hns; reflexivity.
Qed.

(** X6. Whatever is created or updated has the spec, labels, owner
    references, name, namespace and uid of the desired definition: of the
    stored object an update keeps the resourceVersion, the creationTimestamp,
    the managedFields and annotations, and nothing else. *)
Theorem written_object_has_the_desired_content (cr : RedisCluster) (role : string) (s : S)
    (pdbParams : redisv1beta1.RedisPodDisruptionBudget) (pdbDef : PodDisruptionBudget)
    (ev : Event) :
  enabledBudget cr = Some pdbParams ->
  desiredDefinition cr role pdbParams = Some pdbDef ->
  let run := ReconcileRedisPodDisruptionBudget cr role (start s) in
  In ev (writes (journal run.2)) ->
  exists pdb,
    written ev = Some pdb
    /\ policyv1beta1.Spec pdb = policyv1beta1.Spec pdbDef
    /\ metav1.Labels (policyv1beta1.ObjectMeta pdb)
       = metav1.Labels (policyv1beta1.ObjectMeta pdbDef)
    /\ metav1.OwnerReferences (policyv1beta1.ObjectMeta pdb)
       = metav1.OwnerReferences (policyv1beta1.ObjectMeta pdbDef)
    /\ nameOf pdb = nameOf pdbDef
    /\ namespaceOf pdb = namespaceOf pdbDef
    /\ metav1.UID (policyv1beta1.ObjectMeta pdb) = metav1.UID (policyv1beta1.ObjectMeta pdbDef).
Proof.
  intros Hon Hdef run. subst run.
  unfold desiredDefinition in Hdef. reconciler_unfold. rewrite Hon, Hdef.
  repeat case_match; intros Hin; journal_cases;
    match goal with
    | Hs : patch.SetLastAppliedAnnotation _ = inr _ |- _ =>
        apply SetLastAppliedAnnotation_inr in Hs as (text & _ & ->)
    end;
    eexists; (split; [reflexivity|]); by repeat split.
Qed.

(** X7. Whatever is created or updated carries, under the last-applied key,
    the encoding of itself with that key taken out. *)
Theorem written_object_carries_its_own_snapshot (cr : RedisCluster) (role : string)
    (s : S) (ev : Event) (pdb : PodDisruptionBudget) :
  let run := ReconcileRedisPodDisruptionBudget cr role (start s) in
  In ev (writes (journal run.2)) ->
  written ev = Some pdb ->
  exists text,
    annotationsOf pdb !! patch.LastAppliedConfig = Some text
    /\ patch.Marshal
         (setMeta (withAnnotations (delete patch.LastAppliedConfig (annotationsOf pdb))) pdb)
       = inr text.
Proof.
  intros run. subst run. reconciler_unfold.
  repeat case_match; intros Hin Hw; journal_cases; simplify_eq/=;
    match goal with
    | Hs : patch.SetLastAppliedAnnotation _ = inr _ |- _ =>
        apply SetLastAppliedAnnotation_inr in Hs as (text & Hm & ->)
    end;
    exists text; (split; [apply lookup_insert_eq|]);
    unfold annotationsOf at 1; simpl;
    rewrite delete_insert_eq, delete_delete_eq; exact Hm.
Qed.

(** X8. The branch decides the kind of calls: with the leader's budget
    missing or disabled the invocation gets and deletes and does nothing
    else (it never stamps, calculates, creates or updates); with the budget
    enabled it never deletes. *)
Theorem branch_decides_the_kind_of_calls (cr : RedisCluster) (role : string) (s : S)
    (ev : Event) :
  let run := ReconcileRedisPodDisruptionBudget cr role (start s) in
  In ev (journal run.2) ->
  match enabledBudget cr with
  | None => isGet ev = true \/ isDelete ev = true
  | Some _ => isDelete ev = false
  end.
Proof.
  intros run. subst run. reconciler_unfold.
  repeat case_match; intros Hin; journal_cases; auto.
Qed.

(** X9. The invocation panics in one case only: the budget is enabled, no
    bound is set and the cluster size is a nil pointer. *)
Theorem reconcile_panics_exactly_on_nil_size_without_bounds (cr : RedisCluster)
    (role : string) (s : S) :
  let run := ReconcileRedisPodDisruptionBudget cr role (start s) in
  run.1 = Panic
  <-> exists pdbParams,
        enabledBudget cr = Some pdbParams
        /\ redisv1beta1.Size (redisv1beta1.Spec cr) = None
        /\ redisv1beta1.MinAvailable pdbParams = None
        /\ redisv1beta1.MaxUnavailable pdbParams = None.
Proof.
  intros run. subst run. reconciler_unfold. unfold generatePodDisruptionBudgetDef.
  split.
  - repeat case_match; simplify_eq/=; try discriminate; intros _; eauto.
  - intros (pdbParams & -> & Hsize & Hmin & Hmax). by rewrite Hmin, Hmax, Hsize.
Qed.




(** X13. The annotation loop adds and never changes: the result has the
    keys of both maps, every entry of the new object's map is kept as it is,
    a key the new object lacks gets the stored value, and running the loop
    again changes nothing. *)
Theorem annotation_loop_adds_and_never_changes (stored new : gmap string string) :
  dom (copyMissingAnnotations stored new) = dom new ∪ dom stored
  /\ new ⊆ copyMissingAnnotations stored new
  /\ (forall key, new !! key = None ->
        copyMissingAnnotations stored new !! key = stored !! key)
  /\ copyMissingAnnotations stored (copyMissingAnnotations stored new)
     = copyMissingAnnotations stored new.
Proof.
  rewrite !copyMissingAnnotations_union. split; [apply dom_union_L|].
  split; [apply map_union_subseteq_l|]. split.
  - intros key Hkey. rewrite lookup_union, Hkey. by destruct (stored !! key).
  - apply map_eq. intros key. rewrite !lookup_union.
    by destruct (new !! key), (stored !! key).
Qed.
End Routine.

(** ** The routine against the API server *)
Section AgainstTheServer.
Context `{!patch.Encoder} `{!patch.Maker} `{!MetaBuilder}.

Local Existing Instance apiserver.clientset.

(** X15. The update the routine sends is never turned down as a conflict or
    as missing: sent on the state the get call read, it carries the stored
    object's name and resourceVersion, so the API server accepts it. *)
Theorem update_is_accepted_by_the_server (cr : RedisCluster) (role : string)
    (s : apiserver.State) (namespace : string) (sent : PodDisruptionBudget)
    (res : option error) :
  let run := ReconcileRedisPodDisruptionBudget cr role (start s) in
  In (UpdateCall namespace sent res) (journal run.2) ->
  res = None
  /\ exists stored,
       apiserver.objects (cluster run.2) !! (namespace, nameOf sent)
       = Some (setMeta
                 (fun m =>
                    withResourceVersion (pretty (apiserver.nextRevision s))
                      (withUID (metav1.UID (policyv1beta1.ObjectMeta stored)) m))
                 sent)
       /\ apiserver.objects s !! (namespace, nameOf sent) = Some stored.
Proof.
  intros run. subst run. reconciler_unfold.
  repeat case_match; intros Hin; journal_cases.
  match goal with
  | Hs : patch.SetLastAppliedAnnotation _ = inr _ |- _ =>
      apply SetLastAppliedAnnotation_meta in Hs as (Hrv & _ & _ & Hname & _ & _)
  end.
  match goal with
  | Hg : apiserver.Get _ _ _ = inr ?stored, Hu : apiserver.Update _ _ _ = _ |- _ =>
      unfold apiserver.Get in Hg; unfold apiserver.Update in Hu;
      rewrite Hname in Hu; change (nameOf (adoptStoredMetadata stored ?d)) with (nameOf d) in Hu;
      destruct (apiserver.objects s !! _) as [old|] eqn:Hold; [|discriminate Hg];
      injection Hg as ->;
      rewrite decide_True in Hu by (rewrite Hrv; reflexivity);
      injection Hu as <- <-
  end.
  split; [reflexivity|]. eexists. simpl. rewrite Hname.
  match goal with
  | |- context [nameOf (adoptStoredMetadata ?st ?d)] =>
      change (nameOf (adoptStoredMetadata st d)) with (nameOf d)
  end.
  rewrite lookup_insert_eq. split; [reflexivity|exact Hold].
Qed.

(** What the disabled branch leaves on the API server. *)
Lemma disabled_run_on_the_server (cr : RedisCluster) (role : string) (s : apiserver.State) :
  enabledBudget cr = None ->
  let namespace := metav1.Namespace (redisv1beta1.ObjectMeta cr) in
  let name := metav1.Name (redisv1beta1.ObjectMeta cr) +:+ "-" +:+ role in
  let run := ReconcileRedisPodDisruptionBudget cr role (start s) in
  run.1 = Return None
  /\ apiserver.objects (cluster run.2) !! (namespace, name) = None.
Proof.
  intros Hoff namespace name run. subst run namespace name.
  reconciler_unfold. rewrite Hoff. simpl.
  unfold apiserver.Get, apiserver.Delete.
  destruct (apiserver.objects s !! _) as [old|] eqn:Hold; simpl.
  - rewrite Hold. simpl. split; [reflexivity|]. apply lookup_delete_eq.
  - split; [reflexivity|exact Hold].
Qed.

(** X16. Disabling is idempotent against the API server: a reconcile with
    the budget missing or disabled returns [nil] and leaves no object on the
    server, and the reconcile that follows issues no write call and returns
    [nil]. *)
Theorem reconcile_after_delete_is_quiet (cr : RedisCluster) (role : string)
    (s : apiserver.State) :
  enabledBudget cr = None ->
  let namespace := metav1.Namespace (redisv1beta1.ObjectMeta cr) in
  let name := metav1.Name (redisv1beta1.ObjectMeta cr) +:+ "-" +:+ role in
  let first := ReconcileRedisPodDisruptionBudget cr role (start s) in
  let second := ReconcileRedisPodDisruptionBudget cr role (start (cluster first.2)) in
  first.1 = Return None
  /\ apiserver.objects (cluster first.2) !! (namespace, name) = None
  /\ writes (journal second.2) = []
  /\ second.1 = Return None.
Proof.
  intros Hoff namespace name first second.
  destruct (disabled_run_on_the_server cr role s Hoff) as [Hret Hgone].
  fold namespace name first in Hret, Hgone.
  split; [exact Hret|]. split; [exact Hgone|].
  pose proof (disabled_run cr role (cluster first.2) Hoff) as Hrun.
  cbv zeta in Hrun. fold namespace name second in Hrun.
  change (client.Get namespace name (cluster first.2))
    with (apiserver.Get namespace name (cluster first.2)) in Hrun.
  unfold apiserver.Get in Hrun. rewrite Hgone in Hrun. simpl in Hrun. tauto.
Qed.
End AgainstTheServer.

(** ** The create path against the API server *)

Import objectmatcher apiserver redismeta.
Section CreateThenReconcile.
Context `{!json.Codec}.

Local Arguments patch.SetLastAppliedAnnotation : simpl never.
Local Arguments patch.Calculate : simpl never.
Local Arguments apiserver.Get : simpl never.

Lemma encode_field (obj : PodDisruptionBudget) (p : json.Path) (v : string) :
  In (p, v) (json.encode obj) -> json.field obj p = Some v.
Proof.
  unfold json.encode. intros Hin%list_elem_of_In.
  apply list_elem_of_omap in Hin as (q & _ & Hq).
  destruct (json.field obj q) as [w|] eqn:Hf; simplify_eq/=. done.
Qed.

(** A patch is empty when the modified object has every field of the
    original and the current object has every field of the modified one. *)
Lemma CreateThreeWayMergePatch_empty (original : json.Doc)
    (modified current : PodDisruptionBudget) :
  (forall p v, In (p, v) original -> json.field modified p <> None) ->
  (forall p v, json.field modified p = Some v -> json.field current p = Some v) ->
  CreateThreeWayMergePatch original modified current = {| deletions := []; changes := [] |}.
Proof.
  intros Hdel Hchg. unfold CreateThreeWayMergePatch. f_equal.
  - assert (Hnil : List.filter
                     (fun e : json.Path * string =>
                        bool_decide (json.field modified e.1 = None)) original = []).
    { induction original as [|[p v] rest IH]; [reflexivity|]. simpl.
      rewrite bool_decide_eq_false_2 by (apply (Hdel p v); by left).
      apply IH. intros q w Hq. apply (Hdel q w). by right. }
    by rewrite Hnil.
  - assert (Hall : forall e, In e (json.encode modified) ->
                     json.field current e.1 = Some e.2).
    { intros [p v] Hin. apply Hchg, encode_field, Hin. }
    induction (json.encode modified) as [|e rest IH]; [reflexivity|]. simpl.
    rewrite bool_decide_eq_false_2 by (intros Hne; apply Hne, Hall; by left).
    apply IH. intros e' He'. apply Hall. by right.
Qed.

(** The definition the operator builds is fresh: no backend-owned field is
    set and the reserved annotation is not there. *)
Lemma desiredDefinition_fresh (cr : RedisCluster) (role : string)
    (pdbParams : redisv1beta1.RedisPodDisruptionBudget) (pdbDef : PodDisruptionBudget) :
  desiredDefinition cr role pdbParams = Some pdbDef ->
  resourceVersionOf pdbDef = "" /\ creationTimestampOf pdbDef = None
  /\ managedFieldsOf pdbDef = [] /\ metav1.UID (policyv1beta1.ObjectMeta pdbDef) = ""
  /\ annotationsOf pdbDef !! patch.LastAppliedConfig = None.
Proof.
  unfold desiredDefinition. intros Hmeta%generatePodDisruptionBudgetDef_meta.
  unfold resourceVersionOf, creationTimestampOf, managedFieldsOf, annotationsOf.
  rewrite Hmeta. simpl. repeat split.
Qed.

Lemma setMeta_withAnnotations_same (obj : PodDisruptionBudget) :
  setMeta (withAnnotations (annotationsOf obj)) obj = obj.
Proof. by destruct obj as [[] ?]. Qed.

Lemma SetLastAppliedAnnotation_fresh (pdbDef : PodDisruptionBudget) :
  annotationsOf pdbDef !! patch.LastAppliedConfig = None ->
  patch.SetLastAppliedAnnotation pdbDef = inr (stamped pdbDef).
Proof.
  intros Hla. unfold patch.SetLastAppliedAnnotation, stamped. simpl.
  rewrite delete_id by exact Hla. by rewrite setMeta_withAnnotations_same.
Qed.

Lemma create_run (cr : RedisCluster) (role : string)
    (pdbParams : redisv1beta1.RedisPodDisruptionBudget) (pdbDef : PodDisruptionBudget)
    (s : apiserver.State) :
  enabledBudget cr = Some pdbParams ->
  desiredDefinition cr role pdbParams = Some pdbDef ->
  apiserver.objects s !! (namespaceOf pdbDef, nameOf pdbDef) = None ->
  ReconcileRedisPodDisruptionBudget cr role (start s) =
  (Return None,
   {| cluster :=
        {| apiserver.objects :=
             <[(namespaceOf pdbDef, nameOf pdbDef) := storedAs (apiserver.nextRevision s) (stamped pdbDef)]>
               (apiserver.objects s);
           apiserver.revision := apiserver.nextRevision s |};
      journal :=
        [GetCall (namespaceOf pdbDef) (nameOf pdbDef)
           (inl (StatusNotFound (nameOf pdbDef)));
         AnnotateCall pdbDef None;
         CreateCall (namespaceOf pdbDef) (stamped pdbDef) None] |}).
Proof.
  intros Hon Hdef Hfree.
  destruct (desiredDefinition_fresh _ _ _ _ Hdef) as (_ & _ & _ & _ & Hla).
  apply SetLastAppliedAnnotation_fresh in Hla.
  unfold desiredDefinition in Hdef. reconciler_unfold.
  rewrite Hon, Hdef. cbn. unfold apiserver.Get. rewrite Hfree. cbn.
  rewrite Hla. cbn. unfold apiserver.Create.
  change (nameOf (stamped pdbDef)) with (nameOf pdbDef).
  unfold namespaceOf, nameOf in *. rewrite Hfree. reflexivity.
Qed.

Lemma Calculate_after_create (pdbDef : PodDisruptionBudget) (s : apiserver.State) :
  resourceVersionOf pdbDef = "" -> creationTimestampOf pdbDef = None ->
  managedFieldsOf pdbDef = [] -> metav1.UID (policyv1beta1.ObjectMeta pdbDef) = "" ->
  annotationsOf pdbDef !! patch.LastAppliedConfig = None ->
  json.parse (json.print (json.encode pdbDef)) = Some (json.encode pdbDef) ->
  patch.Calculate (storedAs (apiserver.nextRevision s) (stamped pdbDef)) pdbDef
  = inr {| deletions := []; changes := [] |}.
Proof.
  intros Hrv Hct Hmf Huid Hla Hcodec.
  unfold patch.Calculate. simpl. unfold GetOriginalConfiguration.
  change (annotationsOf (storedAs (apiserver.nextRevision s) (stamped pdbDef)))
    with (<[patch.LastAppliedConfig := json.print (json.encode pdbDef)]>
            (annotationsOf pdbDef)).
  rewrite lookup_insert_eq, Hcodec. f_equal.
  apply CreateThreeWayMergePatch_empty.
  - intros p v Hin%encode_field. congruence.
  - intros p v Hf. destruct p; simpl in *; try exact Hf.
    + rewrite Huid in Hf. discriminate.
    + change (annotationsOf pdbDef !! key = Some v) in Hf.
      rewrite lookup_insert_ne; [exact Hf|]. intros <-. congruence.
    + unfold resourceVersionOf in Hrv. rewrite Hrv in Hf. discriminate.
    + unfold creationTimestampOf in Hct. rewrite Hct in Hf. discriminate.
    + unfold managedFieldsOf in Hmf. rewrite Hmf in Hf. discriminate.
Qed.

(** X14. The create path is idempotent.  Against the API server, with the
    object-matcher over any codec that reads the definition's encoding back,
    a reconcile that finds no object creates it, and the reconcile that
    follows, with the same cluster and nothing changed in between, issues no
    write call. *)
Theorem reconcile_after_create_is_quiet (cr : RedisCluster) (role : string)
    (pdbParams : redisv1beta1.RedisPodDisruptionBudget) (pdbDef : PodDisruptionBudget)
    (s : apiserver.State) :
  enabledBudget cr = Some pdbParams ->
  desiredDefinition cr role pdbParams = Some pdbDef ->
  apiserver.objects s !! (namespaceOf pdbDef, nameOf pdbDef) = None ->
  json.parse (json.print (json.encode pdbDef)) = Some (json.encode pdbDef) ->
  let first := ReconcileRedisPodDisruptionBudget cr role (start s) in
  let second := ReconcileRedisPodDisruptionBudget cr role (start (cluster first.2)) in
  first.1 = Return None
  /\ (exists pdb, writes (journal first.2) = [CreateCall (namespaceOf pdbDef) pdb None])
  /\ second.1 = Return None
  /\ writes (journal second.2) = [].
Proof.
  intros Hon Hdef Hfree Hcodec first second.
  destruct (desiredDefinition_fresh _ _ _ _ Hdef) as (Hrv & Hct & Hmf & Huid & Hla).
  pose proof (create_run cr role pdbParams pdbDef s Hon Hdef Hfree) as Hfirst.
  fold first in Hfirst.
  pose proof (enabled_run cr role (cluster first.2) pdbParams pdbDef Hon Hdef) as Hrun.
  cbv zeta in Hrun. fold second in Hrun.
  assert (Hget : client.Get (namespaceOf pdbDef) (nameOf pdbDef) (cluster first.2)
                 = inr (storedAs (apiserver.nextRevision s) (stamped pdbDef))).
  { rewrite Hfirst. cbn. unfold apiserver.Get. cbn. by rewrite lookup_insert_eq. }
  rewrite Hget, (Calculate_after_create pdbDef s Hrv Hct Hmf Huid Hla Hcodec) in Hrun.
  cbn in Hrun.
  split; [by rewrite Hfirst|]. split; [rewrite Hfirst; cbn; eauto|]. tauto.
Qed.
End CreateThenReconcile.

(** ** Runs of the reconciler *)

Import linecodec scenario.

(** Cluster sizes 3, 4 and 1 give the quorum defaults 2, 3 and 1. *)
Example quorum_defaults :
  (boundsOf <$> desiredDefinition (redis 3 quorumBudget) "leader" (budget true None None),
   boundsOf <$> desiredDefinition (redis 4 quorumBudget) "leader" (budget true None None),
   boundsOf <$> desiredDefinition (redis 1 quorumBudget) "leader" (budget true None None))
  = (Some (Some (FromInt32 2), None), Some (Some (FromInt32 3), None),
     Some (Some (FromInt32 1), None)).
Proof. vm_compute. reflexivity. Qed.



Lemma C9_witness :
  let run := reconcileUnencodable grown created in
  run.1 = Return (Some (MarshalError "unsupported value"))
  /\ writes (journal run.2) = [] /\ cluster run.2 = created.
Proof.
  eapply (@C9_stamping_failure_aborts_before_any_write _ apiserver.clientset
            (failingEncoder "unsupported value") objectmatcher.maker
            redismeta.builder grown "leader" created).
  vm_compute. right. right. left. reflexivity.
Defined.

Lemma C5_witness :
  let run := reconcile grown labelled in
  exists name stored rest,
    client.Get "default" name labelled = inr stored
    /\ journal run.2 = GetCall "default" name (inr stored) :: rest
    /\ (forall namespace' name' r, ~ In (GetCall namespace' name' r) rest)
    /\ (exists sent,
          In (UpdateCall "default" sent None) (journal run.2)
          /\ resourceVersionOf sent = resourceVersionOf stored
          /\ creationTimestampOf sent = creationTimestampOf stored
          /\ managedFieldsOf sent = managedFieldsOf stored).
Proof.
  intros run.
  assert (Hin : exists sent, In (UpdateCall "default" sent None) (journal run.2)).
  { vm_compute. eexists. do 3 right. left. reflexivity. }
  destruct Hin as [sent Hin].
  destruct (C5_update_carries_backend_owned_fields grown "leader" labelled
              "default" sent None Hin) as (name & stored & rest & Hget & Hj & Hrest & Hf).
  exists name, stored, rest.
  split; [exact Hget|]. split; [exact Hj|]. split; [exact Hrest|].
  exists sent. split; [exact Hin|exact Hf].
Defined.

Lemma C8_witness :
  let run := reconcileUnreachable objectmatcher.encoder grown in
  writes (journal run.2) = [] /\ cluster run.2 = tt
  /\ run.1 = Return (Some (TransportError "i/o timeout")).
Proof.
  intros run.
  assert (Hin : In (GetCall "default" "redis-leader" (inl (TransportError "i/o timeout")))
                  (journal run.2)).
  { vm_compute. left. reflexivity. }
  destruct (@C8_fetch_error_is_returned_unless_stamping_fails _
              (unreachable (TransportError "i/o timeout")) objectmatcher.encoder
              objectmatcher.maker redismeta.builder grown "leader" tt
              "default" "redis-leader" (TransportError "i/o timeout") Hin eq_refl)
    as (Hw & Hc & Hret & _).
  split; [exact Hw|]. split; [exact Hc|]. apply Hret.
  intros obj err'. vm_compute. intros [H|[H|[]]]; discriminate H.
Defined.


Lemma C3_witness :
  let run := reconcile grown labelled in
  exists current modified sent,
    desiredDefinition grown "leader" (budget true None None) = Some modified
    /\ client.Get "default" "redis-leader" labelled = inr current
    /\ In (CalculateCall current modified None) (journal run.2)
    /\ In (UpdateCall "default" sent None) (journal run.2)
    /\ patch.SetLastAppliedAnnotation (adoptStoredMetadata current modified) = inr sent.
Proof.
  intros run.
  pose (current := ltac:(the_value_of (client.Get "default" "redis-leader" labelled))).
  pose (modified :=
          ltac:(the_value_of (desiredDefinition grown "leader" (budget true None None)))).
  pose (sent :=
          ltac:(the_value_of
                  (patch.SetLastAppliedAnnotation (adoptStoredMetadata current modified)))).
  assert (Hcalc : In (CalculateCall current modified None) (journal run.2)).
  { vm_compute. right. left. reflexivity. }
  assert (Hupd : In (UpdateCall "default" sent None) (journal run.2)).
  { vm_compute. do 3 right. left. reflexivity. }
  destruct (C3_patch_is_calculated_before_the_merge grown "leader" labelled
              current modified None Hcalc)
    as (pdbParams & Hon & Hdef & Hget & _ & Hsent).
  exists current, modified, sent.
  injection Hon as <-.
  split; [exact Hdef|]. split; [exact Hget|]. split; [exact Hcalc|]. split; [exact Hupd|].
  exact (proj1 (Hsent "default" sent None Hupd)).
Defined.


Lemma C10_witness :
  let leaderRun := reconcile grown created in
  let followerRun :=
    ReconcileRedisPodDisruptionBudget grown "follower" (start apiserver.empty) in
  exists ev1 ev2 pdb1 pdb2,
    In ev1 (writes (journal leaderRun.2)) /\ In ev2 (writes (journal followerRun.2))
    /\ written ev1 = Some pdb1 /\ written ev2 = Some pdb2
    /\ isUpdate ev1 = true /\ isUpdate ev2 = false
    /\ boundsOf pdb1 = boundsOf pdb2.
Proof.
  intros leaderRun followerRun.
  pose (ev1 := ltac:(the_value_of (head (writes (journal (reconcile grown created).2))))).
  pose (ev2 :=
          ltac:(the_value_of
                  (head (writes
                           (journal
                              (ReconcileRedisPodDisruptionBudget grown "follower"
                                 (start apiserver.empty)).2))))).
  assert (Hin1 : In ev1 (writes (journal leaderRun.2))) by (vm_compute; left; reflexivity).
  assert (Hin2 : In ev2 (writes (journal followerRun.2))) by (vm_compute; left; reflexivity).
  destruct (proj1 (proj2 (proj2 (C10_role_does_not_affect_enablement_or_bounds grown grown
                                   "leader" "follower" created apiserver.empty
                                   eq_refl eq_refl)))
              ev1 ev2 Hin1 Hin2) as (pdb1 & pdb2 & Hw1 & Hw2 & Hb).
  exists ev1, ev2, pdb1, pdb2.
  split; [exact Hin1|]. split; [exact Hin2|]. split; [exact Hw1|]. split; [exact Hw2|].
  split; [reflexivity|]. split; [reflexivity|]. exact Hb.
Defined.

(** ** Where the code departs from the specification *)


(** C8 as stated fails: the fetch fails with a transport error, and the
    error returned is the encoder's. *)
Lemma C8_counterexample_stamping_error_hides_fetch_error :
  let run := reconcileUnreachable (failingEncoder "unsupported value") grown in
  In (GetCall "default" "redis-leader" (inl (TransportError "i/o timeout"))) (journal run.2)
  /\ errors.IsNotFound (TransportError "i/o timeout") = false
  /\ run.1 = Return (Some (MarshalError "unsupported value"))
  /\ run.1 <> Return (Some (TransportError "i/o timeout")).
Proof.
  split; [vm_compute; left; reflexivity|]. split; [reflexivity|].
  split; [vm_compute; reflexivity|]. vm_compute. discriminate.
Qed.

(** C3 as stated fails: the object the patch is calculated from has none of
    steps 2 to 4 applied; the object sent has all of them. *)
Lemma C3_counterexample_comparison_on_the_bare_definition :
  let run := reconcile grown labelled in
  exists current modified sent,
    journal run.2 =
      [GetCall "default" "redis-leader" (inr current);
       CalculateCall current modified None;
       AnnotateCall (adoptStoredMetadata current modified) None;
       UpdateCall "default" sent None]
    /\ resourceVersionOf current = "1"
    /\ resourceVersionOf modified = "" /\ resourceVersionOf sent = "1"
    /\ annotationsOf modified !! "team" = None
    /\ annotationsOf sent !! "team" = Some "payments"
    /\ annotationsOf modified !! patch.LastAppliedConfig = None
    /\ is_Some (annotationsOf sent !! patch.LastAppliedConfig)
    /\ modified <> sent.
Proof.
  pose (current := ltac:(the_value_of (client.Get "default" "redis-leader" labelled))).
  pose (modified :=
          ltac:(the_value_of (desiredDefinition grown "leader" (budget true None None)))).
  pose (sent :=
          ltac:(the_value_of
                  (patch.SetLastAppliedAnnotation (adoptStoredMetadata current modified)))).
  exists current, modified, sent.
  split; [vm_compute; reflexivity|].
  repeat (split; [vm_compute; reflexivity|]).
  split; [vm_compute; eexists; reflexivity|]. vm_compute. discriminate.
Qed.


(** The create path on the one-node cluster. *)
Example reconcile_after_create_writes_nothing :
  let first := reconcile (redis 1 quorumBudget) apiserver.empty in
  let second := reconcile (redis 1 quorumBudget) (cluster first.2) in
  first.1 = Return None
  /\ (exists pdb, writes (journal first.2) = [CreateCall "default" pdb None])
  /\ second.1 = Return None
  /\ writes (journal second.2) = [].
Proof.
  pose (pdbDef :=
          ltac:(the_value_of
                  (desiredDefinition (redis 1 quorumBudget) "leader" (budget true None None)))).
  refine (reconcile_after_create_is_quiet (redis 1 quorumBudget) "leader"
            (budget true None None) pdbDef apiserver.empty _ _ _ _);
    vm_compute; reflexivity.
Defined.

(** C4 fails on the update path: the first reconcile updates the stored
    object and succeeds; nothing changes in between; the second reconcile,
    with the same cluster, issues an update again.  The snapshot stamped on
    the update path includes the resourceVersion, creationTimestamp and
    managedFields copied from the stored object, which the desired
    definition never has, so the next patch deletes them. *)
Theorem C4_reconcile_after_update_updates_again :
  let first := reconcile grown created in
  let second := reconcile grown (cluster first.2) in
  first.1 = Return None
  /\ updateCalls (journal first.2) = 1
  /\ second.1 = Return None
  /\ updateCalls (journal second.2) = 1
  /\ exists stored pdbDef,
       client.Get "default" "redis-leader" (cluster first.2) = inr stored
       /\ desiredDefinition grown "leader" (budget true None None) = Some pdbDef
       /\ patch.Calculate stored pdbDef
          = inr {| deletions := [json.MetadataResourceVersion;
                                 json.MetadataCreationTimestamp;
                                 json.MetadataManagedFields];
                   changes := [] |}.
Proof.
  pose (stored :=
          ltac:(the_value_of
                  (client.Get "default" "redis-leader" (cluster (reconcile grown created).2)))).
  pose (pdbDef :=
          ltac:(the_value_of (desiredDefinition grown "leader" (budget true None None)))).
  repeat (split; [vm_compute; reflexivity|]).
  exists stored, pdbDef. repeat (split; [vm_compute; reflexivity|]).
  vm_compute. reflexivity.
Qed.

(** ** Runs for the routine as a whole *)

Lemma write_result_is_returned_witness :
  let run := reconcileReadOnly grown apiserver.empty in
  exists ev,
    In ev (writes (journal run.2))
    /\ isWrite ev = true
    /\ run.1 = Return (Some (TransportError "forbidden")).
Proof.
  intros run.
  pose (ev :=
          ltac:(the_value_of
                  (head (writes (journal (reconcileReadOnly grown apiserver.empty).2))))).
  assert (Hin : In ev (writes (journal run.2))) by (vm_compute; left; reflexivity).
  exists ev. split; [exact Hin|]. split; [reflexivity|].
  exact (@write_result_is_returned _ (readOnlyClient (TransportError "forbidden"))
           objectmatcher.encoder objectmatcher.maker redismeta.builder
           grown "leader" apiserver.empty ev Hin).
Defined.

Lemma returned_error_is_the_error_of_a_call_witness :
  let run := reconcileUnreachable objectmatcher.encoder grown in
  run.1 = Return (Some (TransportError "i/o timeout"))
  /\ exists ev, In ev (journal run.2) /\ resultOf ev = Some (TransportError "i/o timeout").
Proof.
  intros run.
  assert (Hret : run.1 = Return (Some (TransportError "i/o timeout")))
    by (vm_compute; reflexivity).
  split; [exact Hret|].
  exact (@returned_error_is_the_error_of_a_call _
           (unreachable (TransportError "i/o timeout")) objectmatcher.encoder
           objectmatcher.maker redismeta.builder grown "leader" tt
           (TransportError "i/o timeout") Hret).
Defined.

Lemma success_means_every_call_succeeded_witness :
  let run := reconcile grown apiserver.empty in
  let ev := GetCall "default" "redis-leader" (inl (StatusNotFound "redis-leader")) in
  run.1 = Return None
  /\ In ev (journal run.2)
  /\ (resultOf ev = None
      \/ exists namespace name err,
           ev = GetCall namespace name (inl err) /\ errors.IsNotFound err = true).
Proof.
  intros run ev.
  assert (Hret : run.1 = Return None) by (vm_compute; reflexivity).
  assert (Hin : In ev (journal run.2)) by (vm_compute; left; reflexivity).
  split; [exact Hret|]. split; [exact Hin|].
  exact (success_means_every_call_succeeded grown "leader" apiserver.empty ev Hret Hin).
Defined.

Lemma write_addresses_the_object_fetched_witness :
  let run := reconcile grown created in
  exists stored ev,
    In (GetCall "default" "redis-leader" (inr stored)) (journal run.2)
    /\ In ev (writes (journal run.2))
    /\ isUpdate ev = true
    /\ targetOf ev = Some ("default", "redis-leader").
Proof.
  intros run.
  pose (stored := ltac:(the_value_of (client.Get "default" "redis-leader" created))).
  pose (ev := ltac:(the_value_of (head (writes (journal (reconcile grown created).2))))).
  assert (Hget : In (GetCall "default" "redis-leader" (inr stored)) (journal run.2))
    by (vm_compute; left; reflexivity).
  assert (Hin : In ev (writes (journal run.2))) by (vm_compute; left; reflexivity).
  exists stored, ev. split; [exact Hget|]. split; [exact Hin|]. split; [reflexivity|].
  exact (write_addresses_the_object_fetched grown "leader" created
           "default" "redis-leader" (inr stored) ev Hget Hin).
Defined.

Lemma written_object_has_the_desired_content_witness :
  let run := reconcile grown labelled in
  exists pdbDef ev pdb,
    desiredDefinition grown "leader" (budget true None None) = Some pdbDef
    /\ In ev (writes (journal run.2))
    /\ written ev = Some pdb
    /\ policyv1beta1.Spec pdb = policyv1beta1.Spec pdbDef
    /\ metav1.Labels (policyv1beta1.ObjectMeta pdb)
       = metav1.Labels (policyv1beta1.ObjectMeta pdbDef)
    /\ metav1.OwnerReferences (policyv1beta1.ObjectMeta pdb)
       = metav1.OwnerReferences (policyv1beta1.ObjectMeta pdbDef)
    /\ nameOf pdb = nameOf pdbDef
    /\ namespaceOf pdb = namespaceOf pdbDef
    /\ metav1.UID (policyv1beta1.ObjectMeta pdb) = metav1.UID (policyv1beta1.ObjectMeta pdbDef).
Proof.
  intros run.
  pose (pdbDef :=
          ltac:(the_value_of (desiredDefinition grown "leader" (budget true None None)))).
  pose (ev := ltac:(the_value_of (head (writes (journal (reconcile grown labelled).2))))).
  assert (Hdef : desiredDefinition grown "leader" (budget true None None) = Some pdbDef)
    by (vm_compute; reflexivity).
  assert (Hin : In ev (writes (journal run.2))) by (vm_compute; left; reflexivity).
  destruct (written_object_has_the_desired_content grown "leader" labelled
              (budget true None None) pdbDef ev eq_refl Hdef Hin) as (pdb & Hw & Hrest).
  exists pdbDef, ev, pdb. split; [exact Hdef|]. split; [exact Hin|]. split; [exact Hw|].
  exact Hrest.
Defined.

Lemma written_object_carries_its_own_snapshot_witness :
  let run := reconcile grown apiserver.empty in
  exists ev pdb text,
    In ev (writes (journal run.2))
    /\ written ev = Some pdb
    /\ annotationsOf pdb !! patch.LastAppliedConfig = Some text
    /\ patch.Marshal
         (setMeta (withAnnotations (delete patch.LastAppliedConfig (annotationsOf pdb))) pdb)
       = inr text.
Proof.
  intros run.
  pose (ev :=
          ltac:(the_value_of (head (writes (journal (reconcile grown apiserver.empty).2))))).
  pose (pdb := ltac:(the_value_of (written ev))).
  assert (Hin : In ev (writes (journal run.2))) by (vm_compute; left; reflexivity).
  assert (Hw : written ev = Some pdb) by reflexivity.
  destruct (written_object_carries_its_own_snapshot grown "leader" apiserver.empty
              ev pdb Hin Hw) as (text & Hla & Hm).
  exists ev, pdb, text. split; [exact Hin|]. split; [exact Hw|]. split; [exact Hla|exact Hm].
Defined.

Lemma branch_decides_the_kind_of_calls_witness :
  let run := reconcile (redis 3 (Some (budget false None None))) created in
  exists ev,
    In ev (journal run.2) /\ isGet ev = false
    /\ (isGet ev = true \/ isDelete ev = true).
Proof.
  intros run.
  pose (ev :=
          ltac:(the_value_of
                  (last (journal
                           (reconcile (redis 3 (Some (budget false None None))) created).2)))).
  assert (Hin : In ev (journal run.2)) by (vm_compute; right; left; reflexivity).
  exists ev. split; [exact Hin|]. split; [reflexivity|].
  exact (branch_decides_the_kind_of_calls (redis 3 (Some (budget false None None)))
           "leader" created ev Hin).
Defined.

Lemma reconcile_panics_exactly_on_nil_size_without_bounds_witness :
  (reconcile (unsized quorumBudget) created).1 = Panic
  /\ (reconcile (unsized (Some (budget true (Some 1%Z) None))) created).1 <> Panic.
Proof.
  split.
  - apply (proj2 (reconcile_panics_exactly_on_nil_size_without_bounds
                    (unsized quorumBudget) "leader" created)).
    exists (budget true None None). repeat split.
  - intros Hpanic.
    apply (proj1 (reconcile_panics_exactly_on_nil_size_without_bounds
                    (unsized (Some (budget true (Some 1%Z) None))) "leader" created))
      in Hpanic.
    destruct Hpanic as (pdbParams & Hon & _ & Hmin & _).
    injection Hon as <-. discriminate Hmin.
Defined.




Lemma update_is_accepted_by_the_server_witness :
  let run := reconcile grown created in
  exists sent res,
    In (UpdateCall "default" sent res) (journal run.2) /\ res = None.
Proof.
  intros run.
  pose (sent :=
          ltac:(the_value_of
                  (written
                     (default (DeleteCall "" "" None)
                        (last (journal (reconcile grown created).2)))))).
  assert (Hin : In (UpdateCall "default" sent None) (journal run.2))
    by (vm_compute; do 3 right; left; reflexivity).
  exists sent, None. split; [exact Hin|].
  exact (proj1 (update_is_accepted_by_the_server grown "leader" created
                  "default" sent None Hin)).
Defined.

Lemma reconcile_after_delete_is_quiet_witness :
  let cr := redis 3 (Some (budget false None None)) in
  let first := reconcile cr created in
  let second := reconcile cr (cluster first.2) in
  first.1 = Return None
  /\ apiserver.objects (cluster first.2) !! ("default", "redis-leader") = None
  /\ writes (journal second.2) = []
  /\ second.1 = Return None.
Proof.
  exact (reconcile_after_delete_is_quiet (redis 3 (Some (budget false None None)))
           "leader" created eq_refl).
Defined.
